(** * Digital stratification: the analysis engine, embedded and verified

    A shallow embedding of [src/analysis/balance_calculator.py], of the
    numeric methods of [src/analysis/statistical_analysis.py] and of the
    validation step of [src/analysis/reproduce_results.py].

    Numbers.  A Python or numpy float is either a finite number or one of
    the sentinels [inf], [-inf], [nan].  Finite numbers are kept as exact
    rationals ([Q]); rounding of the binary64 format is not modelled, so
    every statement below is about the arithmetic the code performs, read
    exactly.  The theorems are about the branch the code takes, what it
    raises and the shape of what it returns; where a returned number is
    compared with a rational, that rational is the value of the expression
    the code evaluates.  Python ints and floats are not distinguished
    except where the code's behaviour depends on it (the start value of
    [sum]).

    Failure.  A Python call either returns or raises; [outcome] records
    which, and the exception carries its class name and message.

    Libraries.  [scipy.stats.pearsonr] and [scipy.stats.f_oneway] are
    outside the repository: the analysis is parameterised by them.
    scikit-learn's [LinearRegression] is outside it too, and stands here as
    the least-squares slope it computes.

    Output.  What a method prints is kept only where a statement is about
    it: [correlation_analysis] returns the lines of its table beside the
    dict the Python method returns. *)

From Stdlib Require Import QArith ZArith List String Bool Lia Lqa.
From Stdlib Require Import Qabs Qminmax Setoid Morphisms.
From Stdlib Require Import Sorting.Permutation Sorting.Sorted.
Import ListNotations.

Local Open Scope string_scope.
Local Open Scope list_scope.
Local Open Scope Q_scope.

(* ================================================================== *)
(** ** Floats *)

Inductive float : Type :=
| Fin (q : Q)
| PInf
| NInf
| NaN.

(** Equality of floats as numbers: rationals are compared by value. *)
Definition feq (a b : float) : Prop :=
  match a, b with
  | Fin x, Fin y => x == y
  | PInf, PInf => True
  | NInf, NInf => True
  | NaN, NaN => True
  | _, _ => False
  end.

Definition Qltb (x y : Q) : bool := negb (Qle_bool y x).

(** Python's [a == b], [a < b], [a <= b], [a > b] on floats: every
    comparison with [nan] is false. *)
Definition feqb (a b : float) : bool :=
  match a, b with
  | Fin x, Fin y => Qeq_bool x y
  | PInf, PInf => true
  | NInf, NInf => true
  | _, _ => false
  end.

Definition fltb (a b : float) : bool :=
  match a, b with
  | Fin x, Fin y => Qltb x y
  | NInf, Fin _ => true
  | NInf, PInf => true
  | Fin _, PInf => true
  | _, _ => false
  end.

Definition fleb (a b : float) : bool :=
  match a, b with
  | NaN, _ => false
  | _, NaN => false
  | Fin x, Fin y => Qle_bool x y
  | NInf, _ => true
  | _, PInf => true
  | _, _ => false
  end.

Definition fgtb (a b : float) : bool := fltb b a.
Definition fgeb (a b : float) : bool := fleb b a.

Definition fneg (a : float) : float :=
  match a with
  | Fin x => Fin (- x)
  | PInf => NInf
  | NInf => PInf
  | NaN => NaN
  end.

(** Python's [abs]. *)
Definition fabs (a : float) : float :=
  match a with
  | Fin x => Fin (Qabs x)
  | PInf => PInf
  | NInf => PInf
  | NaN => NaN
  end.

(** The infinity with the sign of [x], or [nan] when [x] is zero. *)
Definition signed_inf (x : Q) : float :=
  if Qltb 0 x then PInf else if Qltb x 0 then NInf else NaN.

Definition fadd (a b : float) : float :=
  match a, b with
  | NaN, _ => NaN
  | _, NaN => NaN
  | Fin x, Fin y => Fin (x + y)
  | PInf, NInf => NaN
  | NInf, PInf => NaN
  | PInf, _ => PInf
  | NInf, _ => NInf
  | _, PInf => PInf
  | _, NInf => NInf
  end.

Definition fsub (a b : float) : float := fadd a (fneg b).

Definition fmul (a b : float) : float :=
  match a, b with
  | NaN, _ => NaN
  | _, NaN => NaN
  | Fin x, Fin y => Fin (x * y)
  | Fin x, PInf => signed_inf x
  | Fin x, NInf => signed_inf (- x)
  | PInf, Fin y => signed_inf y
  | NInf, Fin y => signed_inf (- y)
  | PInf, PInf => PInf
  | NInf, NInf => PInf
  | PInf, NInf => NInf
  | NInf, PInf => NInf
  end.

(** [x ** 2]. *)
Definition fsquare (a : float) : float := fmul a a.

(** Division when the divisor is not zero. *)
Definition fdiv_nonzero (a b : float) : float :=
  match a, b with
  | NaN, _ => NaN
  | _, NaN => NaN
  | Fin x, Fin y => Fin (x / y)
  | Fin _, _ => Fin 0
  | PInf, Fin y => signed_inf y
  | NInf, Fin y => signed_inf (- y)
  | _, _ => NaN
  end.

Definition is_zero (a : float) : bool := feqb a (Fin 0).

(* ================================================================== *)
(** ** Exceptions and outcomes *)

Inductive exn : Type := Exn (cls : string) (msg : string).

Definition exn_class (e : exn) : string := let 'Exn c _ := e in c.

Definition ValueError (msg : string) : exn := Exn "ValueError" msg.
Definition ZeroDivisionError (msg : string) : exn := Exn "ZeroDivisionError" msg.
Definition KeyError (msg : string) : exn := Exn "KeyError" msg.

Inductive outcome (A : Type) : Type :=
| Returns (a : A)
| Raises (e : exn).
Arguments Returns {A} a.
Arguments Raises {A} e.

Definition bind {A B : Type} (m : outcome A) (k : A -> outcome B) : outcome B :=
  match m with
  | Returns a => k a
  | Raises e => Raises e
  end.

Notation "x <- m ;; k" := (bind m (fun x => k))
  (at level 61, m at next level, right associativity).
Notation "' p <- m ;; k" := (bind m (fun x => let p := x in k))
  (at level 61, p pattern, m at next level, right associativity).

(** The class of the exception a call raised, if it raised. *)
Definition raised_class {A : Type} (m : outcome A) : option string :=
  match m with
  | Returns _ => None
  | Raises e => Some (exn_class e)
  end.

(** Python's [a / b] on floats: a zero divisor raises. *)
Definition py_div (a b : float) : outcome float :=
  if is_zero b then Raises (ZeroDivisionError "float division by zero")
  else Returns (fdiv_nonzero a b).

(** numpy's [a / b] on float64: a zero divisor yields a signed infinity,
    or [nan] for [0/0]; nothing is raised (the module silences the
    warning). *)
Definition np_div (a b : float) : float :=
  if is_zero b then
    match a with
    | Fin x => signed_inf x
    | PInf => PInf
    | NInf => NInf
    | NaN => NaN
    end
  else fdiv_nonzero a b.

(** Python's two-argument [max] and [min]: the first argument is kept
    unless the second is strictly larger (smaller). *)
Definition py_max (a b : float) : float := if fgtb b a then b else a.
Definition py_min (a b : float) : float := if fltb b a then b else a.

(* ================================================================== *)
(** ** balance_calculator.py *)

Module BalanceIndex.

Record t : Type := mk {
  stem_percent : float;
  humanities_percent : float;
  region : option string
}.

Definition _validate_percentage (value : float) (field_name : string)
  : outcome float :=
  if negb (fleb (Fin 0) value && fleb value (Fin 100)) then
    Raises (ValueError (String.append field_name " percentage must be between 0 and 100"))
  else Returns value.

Definition __init__ (stem humanities : float) (region : option string)
  : outcome t :=
  s <- _validate_percentage stem "STEM" ;;
  h <- _validate_percentage humanities "Humanities" ;;
  Returns (mk s h region).

Definition calculate (self : t) : outcome float :=
  if is_zero (stem_percent self) && is_zero (humanities_percent self) then
    Returns (Fin 0)
  else
    let max_pct := py_max (stem_percent self) (humanities_percent self) in
    let min_pct := py_min (stem_percent self) (humanities_percent self) in
    if fgtb max_pct (Fin 0) then py_div min_pct max_pct else Returns (Fin 0).

Definition ratio (self : t) : outcome float :=
  if is_zero (humanities_percent self) then
    Returns (if fgtb (stem_percent self) (Fin 0) then PInf else NaN)
  else py_div (stem_percent self) (humanities_percent self).

(** The dict [interpretation] returns. *)
Record report : Type := mk_report {
  balance_index : float;
  stem_humanities_ratio : float;
  category : string;
  interpretation_text : string;
  recommendation : string
}.

Definition interpretation (self : t) : outcome report :=
  balance_score <- calculate self ;;
  ratio_score <- ratio self ;;
  let '(category, interp, recommendation) :=
    if fgeb balance_score (Fin (8 # 10)) then
      ("Excellent Balance",
       "Near-optimal educational equilibrium",
       "Maintain current balance while monitoring trends")
    else if fgeb balance_score (Fin (6 # 10)) then
      ("Good Balance",
       "Reasonable educational balance with room for improvement",
       "Minor adjustments to achieve optimal balance")
    else if fgeb balance_score (Fin (4 # 10)) then
      ("Moderate Imbalance",
       "Significant educational stratification present",
       "Systematic policy intervention needed")
    else if fgeb balance_score (Fin (2 # 10)) then
      ("Severe Imbalance",
       "Extreme educational stratification",
       "Urgent comprehensive reform required")
    else
      ("Critical Imbalance",
       "Educational apartheid conditions",
       "Emergency intervention and complete restructuring needed")
  in
  Returns (mk_report balance_score ratio_score category interp recommendation).

End BalanceIndex.

Definition calculate_balance_index (stem_percent humanities_percent : float)
  : outcome float :=
  calculator <- BalanceIndex.__init__ stem_percent humanities_percent None ;;
  BalanceIndex.calculate calculator.

(* ================================================================== *)
(** ** Tables, columns and aggregates (pandas, numpy) *)

(** One row of the cross-sectional table
    [balance_index_47_countries.csv].  Cells hold finite numbers. *)
Record CountryRecord : Type := mk_country {
  country : string;
  region : string;
  stem_percent : Q;
  humanities_percent : Q;
  balance_index : Q;
  stem_humanities_ratio : Q;
  democratic_participation_index : Q;
  innovation_capacity_index : Q;
  civic_engagement_score : Q;
  social_trust_level : Q;
  patent_citations_per_capita : Q;
  democratic_erosion_risk : Q
}.

Definition DataFrame : Type := list CountryRecord.

(** One row of the longitudinal table [time_series_data.csv]. *)
Record TimeSeriesPoint : Type := mk_point {
  year : Z;
  ts_region : string;
  ts_stem_percent : Q;
  ts_humanities_percent : Q;
  ts_balance_index : Q
}.

Definition TimeSeries : Type := list TimeSeriesPoint.

(** The numeric column a name selects, if the table has it. *)
Definition numeric_field (name : string) : option (CountryRecord -> Q) :=
  if String.eqb name "stem_percent" then Some stem_percent
  else if String.eqb name "humanities_percent" then Some humanities_percent
  else if String.eqb name "balance_index" then Some balance_index
  else if String.eqb name "stem_humanities_ratio" then Some stem_humanities_ratio
  else if String.eqb name "democratic_participation_index"
       then Some democratic_participation_index
  else if String.eqb name "innovation_capacity_index"
       then Some innovation_capacity_index
  else if String.eqb name "civic_engagement_score" then Some civic_engagement_score
  else if String.eqb name "social_trust_level" then Some social_trust_level
  else if String.eqb name "patent_citations_per_capita"
       then Some patent_citations_per_capita
  else if String.eqb name "democratic_erosion_risk" then Some democratic_erosion_risk
  else None.

(** [df[name]]. *)
Definition column (df : DataFrame) (name : string) : outcome (list Q) :=
  match numeric_field name with
  | Some f => Returns (map f df)
  | None => Raises (KeyError name)
  end.

Definition Qsum (l : list Q) : Q := fold_right Qplus 0 l.

Definition Qlen {A : Type} (l : list A) : Q := inject_Z (Z.of_nat (List.length l)).

(** The arithmetic mean of a column that is not empty. *)
Definition Qmean (l : list Q) : Q := Qsum l / Qlen l.

(** [np.mean] of a column: [nan] when it is empty. *)
Definition np_mean (l : list Q) : float :=
  match l with
  | [] => NaN
  | _ :: _ => Fin (Qmean l)
  end.

(** The larger (smaller) of two numbers, the first on a tie. *)
Definition Qmax2 (a b : Q) : Q := if Qltb a b then b else a.
Definition Qmin2 (a b : Q) : Q := if Qltb b a then b else a.

(** [Series.max()] and [Series.min()]: [nan] on an empty column. *)
Definition series_max (l : list Q) : float :=
  match l with
  | [] => NaN
  | x :: t => Fin (fold_left Qmax2 t x)
  end.

Definition series_min (l : list Q) : float :=
  match l with
  | [] => NaN
  | x :: t => Fin (fold_left Qmin2 t x)
  end.

(** [Series.unique()]: the distinct values in order of first appearance. *)
Fixpoint unique_from (seen : list string) (l : list string) : list string :=
  match l with
  | [] => []
  | x :: t =>
      if existsb (String.eqb x) seen then unique_from seen t
      else x :: unique_from (x :: seen) t
  end.

Definition unique (l : list string) : list string := unique_from [] l.

(** What Python's [sum] and [/] see: the int the sum starts from, or a
    numpy float once an element was added. *)
Inductive number : Type :=
| PyInt (z : Z)
| NpFloat (f : float).

Definition to_float (n : number) : float :=
  match n with
  | PyInt z => Fin (inject_Z z)
  | NpFloat f => f
  end.

(** [sum(l)] for a list of numpy floats: [0 + l[0] + l[1] + ...]. *)
Definition py_sum (l : list float) : number :=
  fold_left (fun acc x => NpFloat (fadd (to_float acc) x)) l (PyInt 0).

(** [a / b]: between two Python ints a zero divisor raises; as soon as a
    numpy float takes part the division is numpy's. *)
Definition num_div (a b : number) : outcome float :=
  match a, b with
  | PyInt x, PyInt y =>
      if (y =? 0)%Z then Raises (ZeroDivisionError "division by zero")
      else Returns (Fin (inject_Z x / inject_Z y))
  | _, _ => Returns (np_div (to_float a) (to_float b))
  end.

(** A Python dict with string keys: insertion ordered, one entry a key. *)
Fixpoint dict_set {V : Type} (d : list (string * V)) (k : string) (v : V)
  : list (string * V) :=
  match d with
  | [] => [(k, v)]
  | (k', v') :: t =>
      if String.eqb k' k then (k, v) :: t else (k', v') :: dict_set t k v
  end.

Fixpoint dict_get {V : Type} (d : list (string * V)) (k : string) : option V :=
  match d with
  | [] => None
  | (k', v') :: t => if String.eqb k' k then Some v' else dict_get t k
  end.

(** [l[i]]. *)
Definition index {A : Type} (l : list A) (i : nat) : outcome A :=
  match nth_error l i with
  | Some a => Returns a
  | None => Raises (Exn "IndexError" "list index out of range")
  end.

(** The sorted distinct keys of [groupby('year')]. *)
Fixpoint insert_year (y : Z) (l : list Z) : list Z :=
  match l with
  | [] => [y]
  | h :: t =>
      if (y <? h)%Z then y :: l
      else if (y =? h)%Z then l
      else h :: insert_year y t
  end.

Definition group_keys (ts : TimeSeries) : list Z :=
  fold_right insert_year [] (map year ts).

(** One row of [groupby('year').agg(... 'mean')]. *)
Record YearlyMeans : Type := mk_yearly {
  y_year : Z;
  y_stem_percent : Q;
  y_humanities_percent : Q;
  y_balance_index : Q
}.

Definition groupby_year_mean (ts : TimeSeries) : list YearlyMeans :=
  map (fun y =>
         let rows := filter (fun p => (year p =? y)%Z) ts in
         mk_yearly y
           (Qmean (map ts_stem_percent rows))
           (Qmean (map ts_humanities_percent rows))
           (Qmean (map ts_balance_index rows)))
      (group_keys ts).

(** The sum of products of deviations from the means,
    [sum_i (x_i - mean x) * (y_i - mean y)]. *)
Definition codeviation (xs ys : list Q) : Q :=
  Qsum (map (fun xy => (fst xy - Qmean xs) * (snd xy - Qmean ys))
            (combine xs ys)).

(** The slope of the least-squares line through the points
    [(x_i, y_i)]: the codeviation of [x] and [y] over the sum of squared
    deviations of [x]; zero when every [x] is the same. *)
Definition ols_slope (xs ys : list Q) : Q :=
  let sxy := codeviation xs ys in
  let sxx := codeviation xs xs in
  if Qeq_bool sxx 0 then 0 else sxy / sxx.

(** Modelled from the spec: scikit-learn's [LinearRegression] is a
    library outside the repository.  [LinearRegression().fit(X, y).coef_[0]]
    for a single feature is the slope [b] of the ordinary-least-squares
    line [y = a + b * x]; it fails when [X] is empty or [X] and [y] differ
    in length. *)
Definition LinearRegression_fit_coef (X : list Z) (y : list Q) : outcome Q :=
  if (List.length X =? 0)%nat then
    Raises (ValueError "Found array with 0 sample(s) while a minimum of 1 is required")
  else if negb (List.length X =? List.length y)%nat then
    Raises (ValueError "Found input variables with inconsistent numbers of samples")
  else Returns (ols_slope (map inject_Z X) y).

(* ================================================================== *)
(** ** statistical_analysis.py *)

Module DigitalStratificationAnalysis.

(** A line of the table [correlation_analysis] prints; the numbers
    are kept as they are before formatting. *)
Record table_line : Type := mk_line {
  line_label : string;
  line_r : float;
  line_p : float;
  line_manuscript_r : Q
}.

(** The value [{'r': r, 'p': p}] of the returned dict. *)
Record corr_entry : Type := mk_entry {
  r : float;
  p : float
}.

Definition variables : list (string * string) :=
  [ ("democratic_participation_index", "Democratic Participation Index");
    ("innovation_capacity_index", "Innovation Capacity Index");
    ("civic_engagement_score", "Civic Engagement Score");
    ("social_trust_level", "Social Trust Level");
    ("patent_citations_per_capita", "Patent Citations (per capita)");
    ("democratic_erosion_risk", "Democratic Erosion Risk") ].

Definition manuscript_r : list Q :=
  [ 689 # 1000; 847 # 1000; 723 # 1000; 534 # 1000; 656 # 1000; - (678 # 1000) ].

Section Library.

(** [scipy.stats.pearsonr(x, y)]: returns [(r, p)] or raises. *)
Variable pearsonr : list Q -> list Q -> outcome (float * float).

(** [scipy.stats.f_oneway], applied to the groups: returns [(F, p)] or raises. *)
Variable f_oneway : list (list Q) -> outcome (float * float).

(** What the analysis has produced so far: the lines printed and
    the dict [correlations]. *)
Definition corr_state : Type :=
  (list table_line * list (string * corr_entry))%type.

(** One turn of the loop over [enumerate(variables)]. *)
Definition correlation_step (main_data : DataFrame) (st : corr_state)
           (i : nat) (var label : string) : outcome corr_state :=
  x <- column main_data "balance_index" ;;
  y <- column main_data var ;;
  rp <- pearsonr x y ;;
  let r := fst rp in
  let p := snd rp in
  let correlations := dict_set (snd st) var (mk_entry r p) in
  let r := if String.eqb var "democratic_erosion_risk"
           then fneg (fabs r) else r in
  m <- index manuscript_r i ;;
  Returns (fst st ++ [mk_line label r p m], correlations).

Fixpoint correlation_loop (main_data : DataFrame) (i : nat)
         (vars : list (string * string)) (st : corr_state)
  : outcome corr_state :=
  match vars with
  | [] => Returns st
  | (var, label) :: rest =>
      st' <- correlation_step main_data st i var label ;;
      correlation_loop main_data (S i) rest st'
  end.

(** Returns the printed table lines beside the returned dict. *)
Definition correlation_analysis (main_data : DataFrame) : outcome corr_state :=
  correlation_loop main_data 0 variables ([], []).

Definition region_groups (main_data : DataFrame) : list (list Q) :=
  map (fun rg =>
         map balance_index
             (filter (fun row => String.eqb (region row) rg) main_data))
      (unique (map region main_data)).

Definition ss_between (main_data : DataFrame) : number :=
  py_sum
    (map (fun group =>
            fmul (Fin (Qlen group))
                 (fsquare (fsub (np_mean group)
                                (np_mean (map balance_index main_data)))))
         (region_groups main_data)).

Definition ss_total (main_data : DataFrame) : number :=
  py_sum
    (map (fun x =>
            fsquare (fsub (Fin x) (np_mean (map balance_index main_data))))
         (map balance_index main_data)).

(** Returns [(f_stat, p_value, eta_squared)]. *)
Definition anova_analysis (main_data : DataFrame)
  : outcome (float * float * float) :=
  fp <- f_oneway (region_groups main_data) ;;
  eta_squared <- num_div (ss_between main_data) (ss_total main_data) ;;
  Returns (fst fp, snd fp, eta_squared).

End Library.

(** Returns [(asia_stem_slope, asia_hum_slope, europe_stem_slope)]. *)
Definition time_series_analysis (time_series_data : TimeSeries)
  : outcome (Q * Q * Q) :=
  let asia_ts :=
    filter (fun pt => String.eqb (ts_region pt) "Asia") time_series_data in
  let europe_ts :=
    filter (fun pt => String.eqb (ts_region pt) "Europe") time_series_data in
  let asia_yearly := groupby_year_mean asia_ts in
  let europe_yearly := groupby_year_mean europe_ts in
  let years := map y_year asia_yearly in
  asia_stem_slope <-
    LinearRegression_fit_coef years (map y_stem_percent asia_yearly) ;;
  asia_hum_slope <-
    LinearRegression_fit_coef years (map y_humanities_percent asia_yearly) ;;
  europe_stem_slope <-
    LinearRegression_fit_coef years (map y_stem_percent europe_yearly) ;;
  Returns (asia_stem_slope, asia_hum_slope, europe_stem_slope).

Definition digital_stratification_ratio (main_data : DataFrame)
  : outcome float :=
  let stem_max := series_max (map stem_percent main_data) in
  let stem_min := series_min (map stem_percent main_data) in
  let stem_gap := fsub stem_max stem_min in
  let hum_max := series_max (map humanities_percent main_data) in
  let hum_min := series_min (map humanities_percent main_data) in
  let hum_gap := fsub hum_max hum_min in
  let ratio := np_div stem_gap hum_gap in
  Returns ratio.

End DigitalStratificationAnalysis.

(* ================================================================== *)
(** ** reproduce_results.py *)

(** [d[k]] on a dict: a missing key raises. *)
Definition dict_lookup {V : Type} (d : list (string * V)) (k : string)
  : outcome V :=
  match dict_get d k with
  | Some v => Returns v
  | None => Raises (KeyError k)
  end.

Module ManuscriptReproducer.

(** The dict [reproduce_statistical_results] hands to the validation:
    the mapping [correlation_analysis] returned, the triple
    [anova_analysis] returned and the stratification ratio. *)
Record stats_results : Type := mk_stats {
  correlations : list (string * DigitalStratificationAnalysis.corr_entry);
  anova : float * float * float;
  ds_ratio : float
}.

(** One value of [validation_results]; ['data'] keeps the numbers the
    Python string formats. *)
Record validation_entry : Type := mk_validation {
  claim : string;
  data : list float;
  valid : bool
}.

(** The loop that folds the entries' flags into [all_valid]. *)
Definition all_valid_of (validation_results : list (string * validation_entry))
  : bool :=
  fold_left (fun all_valid kv => if negb (valid (snd kv)) then false else all_valid)
            validation_results true.

(** The table is the one the method reads from
    [balance_index_47_countries.csv]. *)
Definition validate_manuscript_claims (main_data : DataFrame)
           (results : stats_results)
  : outcome (list (string * validation_entry) * bool) :=
  let validation_results := [] in
  let asia_data :=
    filter (fun row => String.eqb (region row) "Asia") main_data in
  let asia_stem_mean := np_mean (map stem_percent asia_data) in
  let asia_balance_mean := np_mean (map balance_index asia_data) in
  let claim_1_valid :=
    (fleb (Fin 43) asia_stem_mean && fleb asia_stem_mean (Fin (445 # 10)))
    && fltb asia_balance_mean (Fin (2 # 10)) in
  let validation_results :=
    dict_set validation_results "asia_extreme_stem"
      (mk_validation
         "Asia exhibits extreme STEM emphasis (>43% STEM, Balance Index <0.2)"
         [asia_stem_mean; asia_balance_mean] claim_1_valid) in
  let europe_data :=
    filter (fun row => String.eqb (region row) "Europe") main_data in
  let europe_balance_mean := np_mean (map balance_index europe_data) in
  let claim_2_valid := fgtb europe_balance_mean (Fin (4 # 10)) in
  let validation_results :=
    dict_set validation_results "europe_balanced"
      (mk_validation
         "Europe maintains balanced approach (Balance Index >0.4)"
         [europe_balance_mean] claim_2_valid) in
  dem <- dict_lookup (correlations results) "democratic_participation_index" ;;
  let dem_corr := DigitalStratificationAnalysis.r dem in
  inn <- dict_lookup (correlations results) "innovation_capacity_index" ;;
  let inn_corr := DigitalStratificationAnalysis.r inn in
  let claim_3_valid :=
    fgtb dem_corr (Fin (6 # 10)) && fgtb inn_corr (Fin (8 # 10)) in
  let validation_results :=
    dict_set validation_results "strong_correlations"
      (mk_validation
         "Strong correlations with democratic (>0.6) and innovation (>0.8) outcomes"
         [dem_corr; inn_corr] claim_3_valid) in
  let eta_squared := snd (anova results) in
  let claim_4_valid := fgtb eta_squared (Fin (9 # 10)) in
  let validation_results :=
    dict_set validation_results "high_predictive_power"
      (mk_validation "High predictive power (η² > 0.9)"
         [eta_squared] claim_4_valid) in
  Returns (validation_results, all_valid_of validation_results).

End ManuscriptReproducer.

(* ================================================================== *)
(** ** Reference notions and sample tables *)

(** [m] is the largest (smallest) value of the column [l]. *)
Definition is_max (m : Q) (l : list Q) : Prop :=
  In m l /\ forall y, In y l -> y <= m.

Definition is_min (m : Q) (l : list Q) : Prop :=
  In m l /\ forall y, In y l -> m <= y.

(** Every value of the column is the same number. *)
Definition all_identical (l : list Q) : Prop :=
  forall x y, In x l -> In y l -> x == y.

(** Two countries with the same humanities share and different STEM
    shares. *)
Definition same_humanities_table : DataFrame :=
  [ mk_country "A" "Asia" 40 10 (1 # 4) 4
      (50 # 100) (60 # 100) (55 # 100) (45 # 100) (12 # 10) (70 # 100);
    mk_country "B" "Europe" 44 10 (5 # 22) (44 # 10)
      (52 # 100) (63 # 100) (57 # 100) (47 # 100) (13 # 10) (68 # 100) ].

(** STEM shares ranging over [40,44], humanities shares over [5,10]. *)
Definition spread_table : DataFrame :=
  [ mk_country "A" "Asia" 40 5 (1 # 8) 8
      (50 # 100) (60 # 100) (55 # 100) (45 # 100) (12 # 10) (70 # 100);
    mk_country "B" "Asia" 42 8 (4 # 21) (42 # 8)
      (51 # 100) (61 # 100) (56 # 100) (46 # 100) (12 # 10) (69 # 100);
    mk_country "C" "Europe" 44 10 (5 # 22) (44 # 10)
      (52 # 100) (63 # 100) (57 # 100) (47 # 100) (13 # 10) (68 # 100) ].

(** The grand mean: the mean of [balance_index] over all rows. *)
Definition grand_mean (d : DataFrame) : Q :=
  Qsum (map balance_index d) / Qlen d.

(** The [balance_index] values of the rows of one region. *)
Definition group_values (d : DataFrame) (rg : string) : list Q :=
  map balance_index (filter (fun row => String.eqb (region row) rg) d).

(** The total sum of squares: squared deviations of every value from
    the grand mean, added up. *)
Definition ss_total_spec (d : DataFrame) : Q :=
  Qsum (map (fun row =>
               (balance_index row - grand_mean d)
               * (balance_index row - grand_mean d)) d).

(** The between-group sum of squares: for every region, the group's
    size times the squared deviation of the group's mean from the grand
    mean, added up. *)
Definition ss_between_spec (d : DataFrame) : Q :=
  Qsum (map (fun rg =>
               let g := group_values d rg in
               Qlen g
               * ((Qsum g / Qlen g - grand_mean d)
                  * (Qsum g / Qlen g - grand_mean d)))
            (unique (map region d))).

(** Two regions, two countries each, every Balance Index 0.25. *)
Definition constant_index_table : DataFrame :=
  [ mk_country "A" "Asia" 40 10 (1 # 4) 4
      (50 # 100) (60 # 100) (55 # 100) (45 # 100) (12 # 10) (70 # 100);
    mk_country "B" "Asia" 44 11 (1 # 4) 4
      (51 # 100) (61 # 100) (56 # 100) (46 # 100) (12 # 10) (69 # 100);
    mk_country "C" "Europe" 32 8 (1 # 4) 4
      (52 # 100) (63 # 100) (57 # 100) (47 # 100) (13 # 10) (68 # 100);
    mk_country "D" "Europe" 36 9 (1 # 4) 4
      (53 # 100) (64 # 100) (58 # 100) (48 # 100) (13 # 10) (67 # 100) ].


(** Stand-ins for the two library functions when the analysis is run
    on a sample table: each answers every call with the pair it is
    given, the values the library reports on that table. *)
Definition pearsonr_answering (rp : float * float) (x y : list Q)
  : outcome (float * float) :=
  Returns rp.

Definition f_oneway_answering (fp : float * float) (groups : list (list Q))
  : outcome (float * float) :=
  Returns fp.

(** Modelled from the spec: scipy's [pearsonr] is a library outside the
    repository.  [r] is the Pearson product-moment coefficient of the
    columns [x] and [y], the codeviation of [x] and [y] over the square
    root of the product of their sums of squared deviations; the
    condition is told without the square root. *)
Definition pearson_r_is (x y : list Q) (r : Q) : Prop :=
  0 < codeviation x x
  /\ 0 < codeviation y y
  /\ r * r * (codeviation x x * codeviation y y)
     == codeviation x y * codeviation x y
  /\ 0 <= r * codeviation x y.

(** The six calls of [pearsonr] the analysis makes, by variable. *)
Definition pearson_calls
           (pearsonr : list Q -> list Q -> outcome (float * float))
           (d : DataFrame) : list (string * outcome (float * float)) :=
  let x := map balance_index d in
  [ ("democratic_participation_index",
     pearsonr x (map democratic_participation_index d));
    ("innovation_capacity_index", pearsonr x (map innovation_capacity_index d));
    ("civic_engagement_score", pearsonr x (map civic_engagement_score d));
    ("social_trust_level", pearsonr x (map social_trust_level d));
    ("patent_citations_per_capita",
     pearsonr x (map patent_citations_per_capita d));
    ("democratic_erosion_risk", pearsonr x (map democratic_erosion_risk d)) ].

(** The mapping the results of the calls make, in call order, or the
    first failure among them. *)
Fixpoint collect (calls : list (string * outcome (float * float)))
  : outcome (list (string * DigitalStratificationAnalysis.corr_entry)) :=
  match calls with
  | [] => Returns []
  | (var, Returns rp) :: rest =>
      match collect rest with
      | Returns d =>
          Returns ((var, DigitalStratificationAnalysis.mk_entry (fst rp) (snd rp))
                     :: d)
      | Raises e => Raises e
      end
  | (_, Raises e) :: _ => Raises e
  end.

(** Three countries in which every correlate, democratic erosion risk
    included, rises linearly with the Balance Index. *)
Definition aligned_table : DataFrame :=
  [ mk_country "A" "Asia" 50 10 (2 # 10) 5
      (40 # 100) (40 # 100) (20 # 100) (30 # 100) (14 # 10) (30 # 100);
    mk_country "B" "Europe" 40 20 (5 # 10) 2
      (55 # 100) (70 # 100) (35 # 100) (60 # 100) (20 # 10) (60 # 100);
    mk_country "C" "Europe" 40 32 (8 # 10) (125 # 100)
      (70 # 100) (100 # 100) (50 # 100) (90 # 100) (26 # 10) (90 # 100) ].

(** The first two of them. *)
Definition two_row_table : DataFrame :=
  [ mk_country "A" "Asia" 50 10 (2 # 10) 5
      (40 # 100) (40 # 100) (20 # 100) (30 # 100) (14 # 10) (30 # 100);
    mk_country "B" "Europe" 40 20 (5 # 10) 2
      (55 # 100) (70 # 100) (35 # 100) (60 # 100) (20 # 10) (60 # 100) ].

(** The trend of one region, as the contract of the trend analyzer
    words it: the least-squares slope of the region's per-year means of a
    metric against the years of that region's own observations. *)
Definition trend_spec (ts : TimeSeries) (rg : string) (metric : YearlyMeans -> Q)
  : outcome Q :=
  let yearly :=
    groupby_year_mean (filter (fun pt => String.eqb (ts_region pt) rg) ts) in
  LinearRegression_fit_coef (map y_year yearly) (map metric yearly).

(** Asia observed in 2015, 2016 and 2017, Europe in 2015, 2017 and 2019;
    in both regions the STEM share rises by half a point a year. *)
Definition gap_series : TimeSeries :=
  [ mk_point 2015 "Asia" 40 10 (1 # 4);
    mk_point 2016 "Asia" (405 # 10) (98 # 10) (98 # 405);
    mk_point 2017 "Asia" 41 (96 # 10) (96 # 410);
    mk_point 2015 "Europe" 30 15 (1 # 2);
    mk_point 2017 "Europe" 31 15 (15 # 31);
    mk_point 2019 "Europe" 32 15 (15 # 32) ].

(** Both regions observed every year from 2015 to 2024, with
    [stem_percent = 40 + 0.5 * (year - 2015)] in Asia and a constant STEM
    share in Europe. *)
Definition linear_series : TimeSeries :=
  map (fun k : Z =>
         mk_point (2015 + k) "Asia"
                  (40 + (1 # 2) * inject_Z k) 10
                  (10 / (40 + (1 # 2) * inject_Z k)))
      [0; 1; 2; 3; 4; 5; 6; 7; 8; 9]%Z
  ++ map (fun k : Z => mk_point (2015 + k) "Europe" 34 16 (16 # 34))
         [0; 1; 2; 3; 4; 5; 6; 7; 8; 9]%Z.

(** [x > c] and [x < c] on a float, as propositions: false on [nan]. *)
Definition float_gt (x : float) (c : Q) : Prop :=
  match x with
  | Fin q => c < q
  | PInf => True
  | _ => False
  end.

(** The rows of one region. *)
Definition rows_of (rg : string) (d : DataFrame) : DataFrame :=
  filter (fun row => String.eqb (region row) rg) d.


(** One Asian and one European country inside the validated bounds. *)
Definition manuscript_like_table : DataFrame :=
  [ mk_country "A" "Asia" (439 # 10) (71 # 10) (162 # 1000) (62 # 10)
      (50 # 100) (60 # 100) (55 # 100) (45 # 100) (12 # 10) (70 # 100);
    mk_country "B" "Europe" (339 # 10) (155 # 10) (457 # 1000) (22 # 10)
      (52 # 100) (63 # 100) (57 # 100) (47 # 100) (13 # 10) (68 # 100) ].

(* ================================================================== *)
(** * Verification *)

(** ** Comparisons and arithmetic on floats *)

Lemma Qltb_true (x y : Q) : Qltb x y = true <-> x < y.
Proof.
  unfold Qltb. rewrite negb_true_iff. split; intro H.
  - apply Qnot_le_lt. intro Hle. apply Qle_bool_iff in Hle. congruence.
  - destruct (Qle_bool y x) eqn:E; [|reflexivity].
    apply Qle_bool_iff in E. lra.
Qed.

Lemma Qltb_false (x y : Q) : Qltb x y = false <-> y <= x.
Proof.
  unfold Qltb. rewrite negb_false_iff. apply Qle_bool_iff.
Qed.

Lemma Qle_bool_false (x y : Q) : Qle_bool x y = false <-> y < x.
Proof.
  split; intro H.
  - apply Qnot_le_lt. intro Hle. apply Qle_bool_iff in Hle. congruence.
  - destruct (Qle_bool x y) eqn:E; [|reflexivity].
    apply Qle_bool_iff in E. lra.
Qed.

Lemma Qeq_bool_false (x y : Q) : Qeq_bool x y = false <-> ~ x == y.
Proof.
  split; intro H.
  - intro E. apply Qeq_bool_iff in E. congruence.
  - destruct (Qeq_bool x y) eqn:E; [|reflexivity].
    apply Qeq_bool_iff in E. contradiction.
Qed.

(** Turns every boolean comparison of rationals in the context and the
    goal into the proposition it decides. *)
Ltac qbool :=
  repeat match goal with
  | H : Qltb _ _ = true |- _ => apply Qltb_true in H
  | H : Qltb _ _ = false |- _ => apply Qltb_false in H
  | H : Qle_bool _ _ = true |- _ => apply Qle_bool_iff in H
  | H : Qle_bool _ _ = false |- _ => apply Qle_bool_false in H
  | H : Qeq_bool _ _ = true |- _ => apply Qeq_bool_iff in H
  | H : Qeq_bool _ _ = false |- _ => apply Qeq_bool_false in H
  end.

#[export] Instance feq_Equivalence : Equivalence feq.
Proof.
  split.
  - intros [x| | |]; simpl; auto. reflexivity.
  - intros [x| | |] [y| | |]; simpl; auto. intro H; symmetry; exact H.
  - intros [x| | |] [y| | |] [z| | |]; simpl; auto; try contradiction.
    intros H1 H2; rewrite H1; exact H2.
Qed.

Lemma fleb_range (q : Q) :
  fleb (Fin 0) (Fin q) && fleb (Fin q) (Fin 100) = true <-> 0 <= q <= 100.
Proof.
  simpl. rewrite andb_true_iff, !Qle_bool_iff. tauto.
Qed.

Lemma validate_in_range (q : Q) (name : string) :
  0 <= q <= 100 ->
  BalanceIndex._validate_percentage (Fin q) name = Returns (Fin q).
Proof.
  intro H. unfold BalanceIndex._validate_percentage.
  apply fleb_range in H. rewrite H. reflexivity.
Qed.

Lemma init_in_range (s h : Q) (rg : option string) :
  0 <= s <= 100 -> 0 <= h <= 100 ->
  BalanceIndex.__init__ (Fin s) (Fin h) rg
  = Returns (BalanceIndex.mk (Fin s) (Fin h) rg).
Proof.
  intros Hs Hh. unfold BalanceIndex.__init__.
  rewrite (validate_in_range s), (validate_in_range h) by assumption.
  reflexivity.
Qed.

Lemma calculate_finite (s h : Q) (rg : option string) :
  0 <= s -> 0 <= h ->
  exists idx,
    BalanceIndex.calculate (BalanceIndex.mk (Fin s) (Fin h) rg) = Returns (Fin idx)
    /\ (s == 0 /\ h == 0 -> idx == 0)
    /\ (~ (s == 0 /\ h == 0) -> idx == Qmin s h / Qmax s h).
Proof.
  intros Hs Hh.
  unfold BalanceIndex.calculate, is_zero, py_max, py_min, py_div, is_zero,
    fgtb; simpl.
  destruct (Qeq_bool s 0) eqn:Es; destruct (Qeq_bool h 0) eqn:Eh; simpl; qbool.
  - exists 0. repeat split; try reflexivity. intros []; split; assumption.
  - destruct (Qltb s h) eqn:E1; simpl; qbool; [|lra].
    pose proof (Qltb_true 0 h) as [_ ->]; [|lra].
    destruct (Qltb h s) eqn:E2; simpl; qbool; [lra|].
    pose proof (Qeq_bool_false h 0) as [_ ->]; [|assumption].
    eexists; repeat split; [lra|].
    intros _. rewrite Q.min_l, Q.max_r by lra. reflexivity.
  - destruct (Qltb s h) eqn:E1; simpl; qbool; [lra|].
    pose proof (Qltb_true 0 s) as [_ ->]; [|lra].
    destruct (Qltb h s) eqn:E2; simpl; qbool; [|lra].
    pose proof (Qeq_bool_false s 0) as [_ ->]; [|assumption].
    eexists; repeat split; [lra|].
    intros _. rewrite Q.min_r, Q.max_l by lra. reflexivity.
  - destruct (Qltb s h) eqn:E1; simpl; qbool.
    + pose proof (Qltb_true 0 h) as [_ ->]; [|lra].
      destruct (Qltb h s) eqn:E2; simpl; qbool; [lra|].
      pose proof (Qeq_bool_false h 0) as [_ ->]; [|assumption].
      eexists; repeat split; [lra|].
      intros _. rewrite Q.min_l, Q.max_r by lra. reflexivity.
    + pose proof (Qltb_true 0 s) as [_ ->]; [|lra].
      pose proof (Qeq_bool_false s 0) as [_ ->]; [|assumption].
      destruct (Qltb h s) eqn:E2; simpl; qbool.
      * eexists; repeat split; [lra|].
        intros _. rewrite Q.min_r, Q.max_l by lra. reflexivity.
      * eexists; repeat split; [lra|].
        intros _. rewrite Q.min_l, Q.max_l by lra. reflexivity.
Qed.

Lemma quotient_unit_interval (x y : Q) :
  0 <= x -> x <= y -> 0 < y -> 0 <= x / y <= 1.
Proof.
  intros Hx Hxy Hy. split.
  - apply Qle_shift_div_l; [assumption | lra].
  - apply Qle_shift_div_r; [assumption | lra].
Qed.

Lemma quotient_one (x y : Q) : ~ y == 0 -> (x / y == 1 <-> x == y).
Proof.
  intro Hy. split; intro H.
  - rewrite <- (Qmult_div_r x y Hy), H. ring.
  - rewrite H. field. exact Hy.
Qed.

(** ** The Balance Index *)

(** The index of a validated pair: its value, its range, and when it
    is 1. *)
Lemma calculate_index_facts (s h : Q) (rg : option string) :
  0 <= s <= 100 -> 0 <= h <= 100 ->
  exists idx,
    BalanceIndex.calculate (BalanceIndex.mk (Fin s) (Fin h) rg) = Returns (Fin idx)
    /\ (s == 0 /\ h == 0 -> idx == 0)
    /\ (~ (s == 0 /\ h == 0) -> idx == Qmin s h / Qmax s h)
    /\ 0 <= idx <= 1
    /\ (idx == 1 <-> s == h /\ 0 < s).
Proof.
  intros Hs Hh.
  destruct (calculate_finite s h rg) as (idx & Hc & H0 & Hq); [lra | lra |].
  exists idx.
  split; [exact Hc|]. split; [exact H0|]. split; [exact Hq|].
  destruct (Qeq_dec s 0) as [Es|Es]; destruct (Qeq_dec h 0) as [Eh|Eh].
  - rewrite (H0 (conj Es Eh)). split; [lra|]. split; intro H; lra.
  - assert (Hn : ~ (s == 0 /\ h == 0)) by tauto.
    rewrite (Hq Hn), Q.min_l, Q.max_r by lra.
    split; [apply quotient_unit_interval; lra|].
    rewrite quotient_one by assumption. split; intro H; lra.
  - assert (Hn : ~ (s == 0 /\ h == 0)) by tauto.
    rewrite (Hq Hn), Q.min_r, Q.max_l by lra.
    split; [apply quotient_unit_interval; lra|].
    rewrite quotient_one by assumption. split; intro H; lra.
  - assert (Hn : ~ (s == 0 /\ h == 0)) by tauto.
    rewrite (Hq Hn).
    destruct (Qlt_le_dec s h) as [L|L].
    + rewrite Q.min_l, Q.max_r by lra.
      split; [apply quotient_unit_interval; lra|].
      rewrite quotient_one by assumption. split; intro H; lra.
    + rewrite Q.min_r, Q.max_l by lra.
      split; [apply quotient_unit_interval; lra|].
      rewrite quotient_one by assumption. split; intro H; lra.
Qed.

(** C2.  For every STEM and humanities percentage in [0,100] the object
    is built and [calculate] returns a finite index: 0 when both inputs
    are 0, otherwise min/max of the two; the index lies in [0,1] and is 1
    exactly when the two percentages are equal and positive. *)
Theorem calculate_min_over_max (s h : Q) (rg : option string) :
  0 <= s <= 100 -> 0 <= h <= 100 ->
  exists b idx,
    BalanceIndex.__init__ (Fin s) (Fin h) rg = Returns b
    /\ BalanceIndex.calculate b = Returns (Fin idx)
    /\ (s == 0 /\ h == 0 -> idx == 0)
    /\ (~ (s == 0 /\ h == 0) -> idx == Qmin s h / Qmax s h)
    /\ 0 <= idx <= 1
    /\ (idx == 1 <-> s == h /\ 0 < s).
Proof.
  intros Hs Hh.
  destruct (calculate_index_facts s h rg Hs Hh) as (idx & Hfacts).
  exists (BalanceIndex.mk (Fin s) (Fin h) rg), idx.
  split; [apply init_in_range; assumption | exact Hfacts].
Qed.

Lemma calculate_min_over_max_witness :
  exists b idx,
    BalanceIndex.__init__ (Fin 40) (Fin 50) (Some "Asia") = Returns b
    /\ BalanceIndex.calculate b = Returns (Fin idx)
    /\ (40 == 0 /\ 50 == 0 -> idx == 0)
    /\ (~ (40 == 0 /\ 50 == 0) -> idx == Qmin 40 50 / Qmax 40 50)
    /\ 0 <= idx <= 1
    /\ (idx == 1 <-> 40 == 50 /\ 0 < 40).
Proof.
  apply (calculate_min_over_max 40 50 (Some "Asia")); split; lra.
Defined.

(** C8.  For every STEM and humanities percentage in [0,100] the ratio
    method returns, never raises: [inf] when humanities is 0 and STEM is
    positive, [nan] when both are 0, and the quotient STEM/humanities
    otherwise. *)
Theorem ratio_sentinels (s h : Q) (rg : option string) :
  0 <= s <= 100 -> 0 <= h <= 100 ->
  exists b v,
    BalanceIndex.__init__ (Fin s) (Fin h) rg = Returns b
    /\ BalanceIndex.ratio b = Returns v
    /\ (h == 0 -> 0 < s -> v = PInf)
    /\ (h == 0 -> s == 0 -> v = NaN)
    /\ (~ h == 0 -> feq v (Fin (s / h))).
Proof.
  intros Hs Hh.
  exists (BalanceIndex.mk (Fin s) (Fin h) rg).
  unfold BalanceIndex.ratio, is_zero, py_div, is_zero, fgtb; simpl.
  destruct (Qeq_bool h 0) eqn:Eh; qbool.
  - destruct (Qltb 0 s) eqn:E; qbool.
    + exists PInf. split; [apply init_in_range; assumption|].
      repeat split; auto; intros; try lra; try contradiction.
    + exists NaN. split; [apply init_in_range; assumption|].
      repeat split; auto; intros; try lra; try contradiction.
  - exists (Fin (s / h)). split; [apply init_in_range; assumption|].
    repeat split; intros; try contradiction; try reflexivity.
Qed.

Lemma ratio_sentinels_witness :
  exists b v,
    BalanceIndex.__init__ (Fin 100) (Fin 0) None = Returns b
    /\ BalanceIndex.ratio b = Returns v
    /\ (0 == 0 -> 0 < 100 -> v = PInf)
    /\ (0 == 0 -> 100 == 0 -> v = NaN)
    /\ (~ 0 == 0 -> feq v (Fin (100 / 0))).
Proof.
  apply (ratio_sentinels 100 0 None); split; lra.
Defined.

Lemma ratio_returns (s h : Q) (rg : option string) :
  exists v, BalanceIndex.ratio (BalanceIndex.mk (Fin s) (Fin h) rg) = Returns v.
Proof.
  unfold BalanceIndex.ratio, is_zero, py_div, is_zero; simpl.
  destruct (Qeq_bool h 0); eexists; reflexivity.
Qed.

(** C7.  For every valid input pair the category is the step function
    of the index with half-open steps closed below: [0.8,1] Excellent,
    [0.6,0.8) Good, [0.4,0.6) Moderate, [0.2,0.4) Severe, [0,0.2)
    Critical; an index of exactly 0.8 is Excellent and one of exactly 0.2
    is Severe. *)
Theorem interpretation_step_function (s h : Q) (rg : option string) :
  0 <= s <= 100 -> 0 <= h <= 100 ->
  exists b idx rep,
    BalanceIndex.__init__ (Fin s) (Fin h) rg = Returns b
    /\ BalanceIndex.calculate b = Returns (Fin idx)
    /\ BalanceIndex.interpretation b = Returns rep
    /\ BalanceIndex.balance_index rep = Fin idx
    /\ 0 <= idx <= 1
    /\ (8 # 10 <= idx -> BalanceIndex.category rep = "Excellent Balance")
    /\ (6 # 10 <= idx < 8 # 10 -> BalanceIndex.category rep = "Good Balance")
    /\ (4 # 10 <= idx < 6 # 10 ->
        BalanceIndex.category rep = "Moderate Imbalance")
    /\ (2 # 10 <= idx < 4 # 10 -> BalanceIndex.category rep = "Severe Imbalance")
    /\ (idx < 2 # 10 -> BalanceIndex.category rep = "Critical Imbalance")
    /\ (idx == 8 # 10 -> BalanceIndex.category rep = "Excellent Balance")
    /\ (idx == 2 # 10 -> BalanceIndex.category rep = "Severe Imbalance").
Proof.
  intros Hs Hh.
  destruct (calculate_index_facts s h rg Hs Hh)
    as (idx & Hc & _ & _ & Hb & _).
  destruct (ratio_returns s h rg) as (v & Hv).
  exists (BalanceIndex.mk (Fin s) (Fin h) rg), idx.
  unfold BalanceIndex.interpretation.
  rewrite Hc, Hv. simpl. unfold fgeb, fleb.
  destruct (Qle_bool (8 # 10) idx) eqn:E8;
    [| destruct (Qle_bool (6 # 10) idx) eqn:E6;
       [| destruct (Qle_bool (4 # 10) idx) eqn:E4;
          [| destruct (Qle_bool (2 # 10) idx) eqn:E2]]];
    qbool; eexists;
    (split; [apply init_in_range; assumption|]);
    (split; [reflexivity|]); (split; [reflexivity|]);
    (split; [reflexivity|]); (split; [exact Hb|]);
    simpl; repeat split; intros; try reflexivity; lra.
Qed.

Lemma interpretation_step_function_witness :
  exists b idx rep,
    BalanceIndex.__init__ (Fin 10) (Fin 50) None = Returns b
    /\ BalanceIndex.calculate b = Returns (Fin idx)
    /\ BalanceIndex.interpretation b = Returns rep
    /\ BalanceIndex.balance_index rep = Fin idx
    /\ 0 <= idx <= 1
    /\ (8 # 10 <= idx -> BalanceIndex.category rep = "Excellent Balance")
    /\ (6 # 10 <= idx < 8 # 10 -> BalanceIndex.category rep = "Good Balance")
    /\ (4 # 10 <= idx < 6 # 10 ->
        BalanceIndex.category rep = "Moderate Imbalance")
    /\ (2 # 10 <= idx < 4 # 10 -> BalanceIndex.category rep = "Severe Imbalance")
    /\ (idx < 2 # 10 -> BalanceIndex.category rep = "Critical Imbalance")
    /\ (idx == 8 # 10 -> BalanceIndex.category rep = "Excellent Balance")
    /\ (idx == 2 # 10 -> BalanceIndex.category rep = "Severe Imbalance").
Proof.
  apply (interpretation_step_function 10 50 None); split; lra.
Defined.

(** The boundary cases, run: 40 and 50 per cent give the index 0.8 and
    the category Excellent; 10 and 50 per cent give 0.2 and Severe. *)
Example interpretation_at_boundaries :
  (exists rep,
      BalanceIndex.interpretation (BalanceIndex.mk (Fin 40) (Fin 50) None)
      = Returns rep
      /\ feq (BalanceIndex.balance_index rep) (Fin (8 # 10))
      /\ BalanceIndex.category rep = "Excellent Balance")
  /\ (exists rep,
      BalanceIndex.interpretation (BalanceIndex.mk (Fin 10) (Fin 50) None)
      = Returns rep
      /\ feq (BalanceIndex.balance_index rep) (Fin (2 # 10))
      /\ BalanceIndex.category rep = "Severe Imbalance").
Proof.
  split; eexists; (split; [vm_compute; reflexivity|]); split; reflexivity.
Qed.

(** C10.  For every pair of inputs, finite or not, the quick function
    [calculate_balance_index] returns what building the object and
    calling [calculate] returns, and raises the same [ValueError] when a
    percentage is outside [0,100] (STEM is checked first). *)
Theorem calculate_balance_index_agrees (s h : float) :
  calculate_balance_index s h
  = match BalanceIndex.__init__ s h None with
    | Returns calculator => BalanceIndex.calculate calculator
    | Raises e => Raises e
    end
  /\ (fleb (Fin 0) s && fleb s (Fin 100) = false ->
      BalanceIndex.__init__ s h None
      = Raises (ValueError "STEM percentage must be between 0 and 100")
      /\ calculate_balance_index s h
         = Raises (ValueError "STEM percentage must be between 0 and 100"))
  /\ (fleb (Fin 0) s && fleb s (Fin 100) = true ->
      fleb (Fin 0) h && fleb h (Fin 100) = false ->
      BalanceIndex.__init__ s h None
      = Raises (ValueError "Humanities percentage must be between 0 and 100")
      /\ calculate_balance_index s h
         = Raises (ValueError "Humanities percentage must be between 0 and 100"))
  /\ (fleb (Fin 0) s && fleb s (Fin 100) = true ->
      fleb (Fin 0) h && fleb h (Fin 100) = true ->
      BalanceIndex.__init__ s h None = Returns (BalanceIndex.mk s h None)
      /\ calculate_balance_index s h
         = BalanceIndex.calculate (BalanceIndex.mk s h None)).
Proof.
  unfold calculate_balance_index, BalanceIndex.__init__,
    BalanceIndex._validate_percentage.
  split; [reflexivity|].
  split; [intros ->; split; reflexivity|].
  split; intros -> ->; split; reflexivity.
Qed.

(** The quick function on inputs the constructor refuses and accepts. *)
Example calculate_balance_index_runs :
  calculate_balance_index (Fin 101) (Fin 50)
  = Raises (ValueError "STEM percentage must be between 0 and 100")
  /\ calculate_balance_index (Fin 50) NaN
     = Raises (ValueError "Humanities percentage must be between 0 and 100")
  /\ calculate_balance_index PInf (Fin 50)
     = Raises (ValueError "STEM percentage must be between 0 and 100")
  /\ calculate_balance_index (Fin 0) (Fin 0) = Returns (Fin 0)
  /\ (exists idx, calculate_balance_index (Fin 50) (Fin 50) = Returns (Fin idx)
                  /\ idx == 1)
  /\ (exists idx, calculate_balance_index (Fin 100) (Fin 0) = Returns (Fin idx)
                  /\ idx == 0).
Proof.
  repeat split; try reflexivity;
    eexists; (split; [vm_compute; reflexivity | reflexivity]).
Qed.

(** ** Column aggregates *)

Lemma fold_max_spec (t : list Q) (x : Q) :
  let m := fold_left Qmax2 t x in
  (m = x \/ In m t) /\ x <= m /\ forall y, In y t -> y <= m.
Proof.
  revert x. induction t as [|a t IH]; intro x; simpl.
  - split; [left; reflexivity|]. split; [lra|]. intros y [].
  - destruct (IH (Qmax2 x a)) as (Hin & Hle & Hall). unfold Qmax2 in *.
    destruct (Qltb x a) eqn:E; qbool.
    + split; [destruct Hin as [->|Hin]; auto|].
      split; [lra|]. intros y [<-|Hy]; [assumption | apply Hall, Hy].
    + split; [destruct Hin as [->|Hin]; auto|].
      split; [assumption|]. intros y [<-|Hy]; [lra | apply Hall, Hy].
Qed.

Lemma fold_min_spec (t : list Q) (x : Q) :
  let m := fold_left Qmin2 t x in
  (m = x \/ In m t) /\ m <= x /\ forall y, In y t -> m <= y.
Proof.
  revert x. induction t as [|a t IH]; intro x; simpl.
  - split; [left; reflexivity|]. split; [lra|]. intros y [].
  - destruct (IH (Qmin2 x a)) as (Hin & Hle & Hall). unfold Qmin2 in *.
    destruct (Qltb a x) eqn:E; qbool.
    + split; [destruct Hin as [->|Hin]; auto|].
      split; [lra|]. intros y [<-|Hy]; [assumption | apply Hall, Hy].
    + split; [destruct Hin as [->|Hin]; auto|].
      split; [assumption|]. intros y [<-|Hy]; [lra | apply Hall, Hy].
Qed.

Lemma series_max_spec (l : list Q) :
  l <> [] -> exists m, series_max l = Fin m /\ is_max m l.
Proof.
  destruct l as [|x t]; [congruence|]. intros _.
  destruct (fold_max_spec t x) as (Hin & Hle & Hall).
  exists (fold_left Qmax2 t x). split; [reflexivity|]. split.
  - simpl. destruct Hin as [->|Hin]; auto.
  - intros y [<-|Hy]; [assumption | apply Hall, Hy].
Qed.

Lemma series_min_spec (l : list Q) :
  l <> [] -> exists m, series_min l = Fin m /\ is_min m l.
Proof.
  destruct l as [|x t]; [congruence|]. intros _.
  destruct (fold_min_spec t x) as (Hin & Hle & Hall).
  exists (fold_left Qmin2 t x). split; [reflexivity|]. split.
  - simpl. destruct Hin as [->|Hin]; auto.
  - intros y [<-|Hy]; [assumption | apply Hall, Hy].
Qed.

(** A column has zero spread exactly when all its values are the same. *)
Lemma zero_spread_iff (l : list Q) (hi lo : Q) :
  is_max hi l -> is_min lo l -> (hi - lo == 0 <-> all_identical l).
Proof.
  intros [Hhi Hmax] [Hlo Hmin]. split.
  - intros E x y Hx Hy.
    pose proof (Hmax x Hx). pose proof (Hmin x Hx).
    pose proof (Hmax y Hy). pose proof (Hmin y Hy). lra.
  - intro Hall. pose proof (Hall hi lo Hhi Hlo). lra.
Qed.

(** ** The Digital Stratification Ratio *)

(** C4, as the code has it.  On every table with at least one row the
    computation returns and never raises.  With [stem_gap] and [hum_gap]
    the spreads (largest minus smallest value) of the two columns: when
    [hum_gap] is 0, which is exactly when all humanities shares are the
    same, the result is [inf] if [stem_gap] is positive and [nan] if it is
    0; otherwise it is [stem_gap / hum_gap]. *)
Theorem stratification_ratio_of_spreads (main_data : DataFrame) :
  main_data <> [] ->
  exists stem_max stem_min hum_max hum_min v,
    is_max stem_max (map stem_percent main_data)
    /\ is_min stem_min (map stem_percent main_data)
    /\ is_max hum_max (map humanities_percent main_data)
    /\ is_min hum_min (map humanities_percent main_data)
    /\ DigitalStratificationAnalysis.digital_stratification_ratio main_data
       = Returns v
    /\ (hum_max - hum_min == 0
        <-> all_identical (map humanities_percent main_data))
    /\ (hum_max - hum_min == 0 -> 0 < stem_max - stem_min -> v = PInf)
    /\ (hum_max - hum_min == 0 -> stem_max - stem_min == 0 -> v = NaN)
    /\ (~ hum_max - hum_min == 0 ->
        feq v (Fin ((stem_max - stem_min) / (hum_max - hum_min)))).
Proof.
  intro Hne.
  assert (Hs : map stem_percent main_data <> [])
    by (destruct main_data; simpl; congruence).
  assert (Hh : map humanities_percent main_data <> [])
    by (destruct main_data; simpl; congruence).
  destruct (series_max_spec _ Hs) as (smax & Esmax & Hsmax).
  destruct (series_min_spec _ Hs) as (smin & Esmin & Hsmin).
  destruct (series_max_spec _ Hh) as (hmax & Ehmax & Hhmax).
  destruct (series_min_spec _ Hh) as (hmin & Ehmin & Hhmin).
  exists smax, smin, hmax, hmin.
  unfold DigitalStratificationAnalysis.digital_stratification_ratio.
  rewrite Esmax, Esmin, Ehmax, Ehmin.
  assert (Hsge : smin <= smax) by (destruct Hsmax as [Hi _]; apply Hsmin, Hi).
  unfold np_div, is_zero, fsub; simpl.
  assert (Hz : hmax - hmin == 0
               <-> all_identical (map humanities_percent main_data))
    by (apply zero_spread_iff; assumption).
  destruct (Qeq_bool (hmax + - hmin) 0) eqn:E; qbool.
  - unfold signed_inf.
    destruct (Qltb 0 (smax + - smin)) eqn:E1; qbool.
    + exists PInf. do 4 (split; [assumption|]). split; [reflexivity|].
      split; [exact Hz|]. repeat split; intros; try reflexivity; lra.
    + destruct (Qltb (smax + - smin) 0) eqn:E2; qbool; [lra|].
      exists NaN. do 4 (split; [assumption|]). split; [reflexivity|].
      split; [exact Hz|]. repeat split; intros; try reflexivity; lra.
  - eexists. do 4 (split; [assumption|]). split; [reflexivity|].
    split; [exact Hz|]. unfold Qminus.
    repeat split; intros; try contradiction; try reflexivity.
Qed.

Lemma stratification_ratio_of_spreads_witness :
  exists stem_max stem_min hum_max hum_min v,
    is_max stem_max (map stem_percent spread_table)
    /\ is_min stem_min (map stem_percent spread_table)
    /\ is_max hum_max (map humanities_percent spread_table)
    /\ is_min hum_min (map humanities_percent spread_table)
    /\ DigitalStratificationAnalysis.digital_stratification_ratio spread_table
       = Returns v
    /\ (hum_max - hum_min == 0
        <-> all_identical (map humanities_percent spread_table))
    /\ (hum_max - hum_min == 0 -> 0 < stem_max - stem_min -> v = PInf)
    /\ (hum_max - hum_min == 0 -> stem_max - stem_min == 0 -> v = NaN)
    /\ (~ hum_max - hum_min == 0 ->
        feq v (Fin ((stem_max - stem_min) / (hum_max - hum_min)))).
Proof.
  apply (stratification_ratio_of_spreads spread_table). discriminate.
Defined.

(** C4 as stated fails: on a table whose humanities shares are all 10
    the computation raises nothing and returns [inf]. *)
Lemma stratification_ratio_returns_inf :
  all_identical (map humanities_percent same_humanities_table)
  /\ DigitalStratificationAnalysis.digital_stratification_ratio
       same_humanities_table = Returns PInf
  /\ raised_class
       (DigitalStratificationAnalysis.digital_stratification_ratio
          same_humanities_table) = None.
Proof.
  split; [|split; reflexivity].
  intros x y Hx Hy. simpl in Hx, Hy.
  destruct Hx as [<-|[<-|[]]]; destruct Hy as [<-|[<-|[]]]; reflexivity.
Qed.

(** STEM shares in [40,44] and humanities shares in [5,10] give
    (44-40)/(10-5) = 0.8. *)
Example stratification_ratio_spread_table :
  exists v,
    DigitalStratificationAnalysis.digital_stratification_ratio spread_table
    = Returns (Fin v) /\ v == 8 # 10.
Proof.
  eexists. split; [vm_compute; reflexivity | reflexivity].
Qed.

(** ** Sums and means *)

Lemma Qlen_cons {A : Type} (x : A) (l : list A) : Qlen (x :: l) == 1 + Qlen l.
Proof.
  unfold Qlen. simpl List.length. rewrite Nat2Z.inj_succ, <- Z.add_1_l.
  rewrite inject_Z_plus. reflexivity.
Qed.

Lemma Qlen_map {A B : Type} (f : A -> B) (l : list A) : Qlen (map f l) = Qlen l.
Proof. unfold Qlen. rewrite length_map. reflexivity. Qed.

Lemma Qsum_const (l : list Q) (c : Q) :
  (forall x, In x l -> x == c) -> Qsum l == Qlen l * c.
Proof.
  induction l as [|a l IH]; intro H.
  - unfold Qlen; simpl. ring.
  - assert (Ha : a == c) by (apply H; simpl; auto).
    assert (Hl : Qsum l == Qlen l * c) by (apply IH; intros; apply H; simpl; auto).
    change (Qsum (a :: l)) with (a + Qsum l).
    rewrite Qlen_cons, Hl, Ha. ring.
Qed.

Lemma Qsum_all_zero (l : list Q) : (forall x, In x l -> x == 0) -> Qsum l == 0.
Proof.
  intro H. rewrite (Qsum_const l 0 H). ring.
Qed.

Lemma Qsum_ext {A : Type} (f g : A -> Q) (l : list A) :
  (forall x, In x l -> f x == g x) -> Qsum (map f l) == Qsum (map g l).
Proof.
  induction l as [|a l IH]; intro H; simpl; [reflexivity|].
  assert (Ha : f a == g a) by (apply H; simpl; auto).
  assert (Hl : Qsum (map f l) == Qsum (map g l))
    by (apply IH; intros; apply H; simpl; auto).
  rewrite Ha, Hl. reflexivity.
Qed.

(** ** Python's [sum] over finite numpy floats *)

Lemma fadd_finite (u x : float) (a q : Q) :
  feq u (Fin a) -> feq x (Fin q) -> feq (fadd u x) (Fin (a + q)).
Proof.
  destruct u, x; simpl; try contradiction. intros -> ->. reflexivity.
Qed.

Lemma fold_sum_finite (fl : list float) (ql : list Q) :
  Forall2 (fun f q => feq f (Fin q)) fl ql ->
  forall (acc : number) (a : Q),
    feq (to_float acc) (Fin a) ->
    feq (to_float
           (fold_left (fun acc x => NpFloat (fadd (to_float acc) x)) fl acc))
        (Fin (a + Qsum ql)).
Proof.
  induction 1 as [|f q fl ql Hfq _ IH]; intros acc a Ha; simpl.
  - destruct (to_float acc); simpl in *; try contradiction. rewrite Ha. ring.
  - pose proof (IH (NpFloat (fadd (to_float acc) f)) (a + q)
                   (fadd_finite _ _ _ _ Ha Hfq)) as H.
    destruct (to_float (fold_left _ fl _)); simpl in *; try contradiction.
    rewrite H. ring.
Qed.

Lemma py_sum_finite (fl : list float) (ql : list Q) :
  Forall2 (fun f q => feq f (Fin q)) fl ql ->
  feq (to_float (py_sum fl)) (Fin (Qsum ql)).
Proof.
  intro H. unfold py_sum.
  pose proof (fold_sum_finite fl ql H (PyInt 0) 0) as H0.
  destruct (to_float (fold_left _ fl _)); simpl in *;
    try (exfalso; apply H0; reflexivity).
  rewrite H0 by reflexivity. ring.
Qed.

Lemma fold_sum_is_float (fl : list float) (f : float) :
  exists f',
    fold_left (fun acc x => NpFloat (fadd (to_float acc) x)) fl (NpFloat f)
    = NpFloat f'.
Proof.
  revert f. induction fl as [|x fl IH]; intro f; simpl.
  - exists f. reflexivity.
  - apply IH.
Qed.

Lemma py_sum_is_float (fl : list float) :
  fl <> [] -> exists f, py_sum fl = NpFloat f.
Proof.
  destruct fl as [|x fl]; [congruence|]. intros _.
  unfold py_sum. simpl. apply fold_sum_is_float.
Qed.

Lemma Forall2_map_same {A B C : Type} (P : B -> C -> Prop)
      (f : A -> B) (g : A -> C) (l : list A) :
  (forall x, In x l -> P (f x) (g x)) -> Forall2 P (map f l) (map g l).
Proof.
  induction l as [|a l IH]; intro H; simpl; constructor.
  - apply H. simpl. auto.
  - apply IH. intros. apply H. simpl. auto.
Qed.


(** ** Regions and groups *)

Lemma unique_from_In (seen l : list string) (x : string) :
  In x (unique_from seen l) -> In x l.
Proof.
  revert seen. induction l as [|a l IH]; intros seen H; simpl in *; [assumption|].
  destruct (existsb (String.eqb a) seen).
  - right. apply (IH seen H).
  - destruct H as [<-|H]; [left; reflexivity | right; apply (IH _ H)].
Qed.

Lemma unique_In (l : list string) (x : string) : In x (unique l) -> In x l.
Proof. apply unique_from_In. Qed.

Lemma group_values_nonempty (d : DataFrame) (rg : string) :
  In rg (map region d) -> group_values d rg <> [].
Proof.
  rewrite in_map_iff. intros (row & <- & Hrow) E.
  assert (Hin : In (balance_index row) (group_values d (region row))).
  { unfold group_values. apply in_map. apply filter_In.
    split; [assumption | apply String.eqb_refl]. }
  rewrite E in Hin. destruct Hin.
Qed.

Lemma np_mean_nonempty (l : list Q) : l <> [] -> np_mean l = Fin (Qmean l).
Proof. destruct l; [congruence | reflexivity]. Qed.

Lemma region_groups_eq (d : DataFrame) :
  DigitalStratificationAnalysis.region_groups d
  = map (group_values d) (unique (map region d)).
Proof. reflexivity. Qed.

(** ** The ANOVA sums of squares *)

Lemma ss_total_value (d : DataFrame) :
  d <> [] ->
  (exists f, DigitalStratificationAnalysis.ss_total d = NpFloat f)
  /\ feq (to_float (DigitalStratificationAnalysis.ss_total d))
         (Fin (ss_total_spec d)).
Proof.
  intro Hne. unfold DigitalStratificationAnalysis.ss_total. split.
  - apply py_sum_is_float. destruct d; simpl; congruence.
  - unfold ss_total_spec. rewrite map_map.
    apply py_sum_finite. apply Forall2_map_same. intros row _.
    rewrite np_mean_nonempty by (destruct d; simpl; congruence).
    simpl. unfold Qmean, grand_mean, Qminus. rewrite Qlen_map. reflexivity.
Qed.

Lemma ss_between_value (d : DataFrame) :
  d <> [] ->
  (exists f, DigitalStratificationAnalysis.ss_between d = NpFloat f)
  /\ feq (to_float (DigitalStratificationAnalysis.ss_between d))
         (Fin (ss_between_spec d)).
Proof.
  intro Hne. unfold DigitalStratificationAnalysis.ss_between.
  rewrite region_groups_eq, map_map. split.
  - apply py_sum_is_float.
    destruct d as [|row d]; [congruence|]. discriminate.
  - unfold ss_between_spec.
    apply py_sum_finite. apply Forall2_map_same. intros rg Hrg.
    apply unique_In in Hrg.
    rewrite (np_mean_nonempty (group_values d rg))
      by (apply group_values_nonempty; assumption).
    rewrite np_mean_nonempty by (destruct d; simpl; congruence).
    simpl. unfold Qmean, grand_mean, Qminus. rewrite Qlen_map. reflexivity.
Qed.

(** On a table that has a row the two sums are numpy floats, so their
    division is numpy's and raises nothing. *)
Lemma eta_squared_computed (d : DataFrame) :
  d <> [] ->
  exists ssb sst,
    DigitalStratificationAnalysis.ss_between d = NpFloat ssb
    /\ DigitalStratificationAnalysis.ss_total d = NpFloat sst
    /\ feq ssb (Fin (ss_between_spec d))
    /\ feq sst (Fin (ss_total_spec d))
    /\ num_div (DigitalStratificationAnalysis.ss_between d)
               (DigitalStratificationAnalysis.ss_total d)
       = Returns (np_div ssb sst).
Proof.
  intro Hne.
  destruct (ss_between_value d Hne) as ((a & Ea) & Ha).
  destruct (ss_total_value d Hne) as ((b & Eb) & Hb).
  rewrite Ea, Eb in *. simpl in Ha, Hb.
  exists a, b. repeat split; try assumption; reflexivity.
Qed.







(** On [constant_index_table] both computed sums are 0. *)
Example constant_index_table_sums :
  exists ssb sst,
    DigitalStratificationAnalysis.ss_between constant_index_table = NpFloat ssb
    /\ DigitalStratificationAnalysis.ss_total constant_index_table
       = NpFloat sst
    /\ is_zero ssb = true /\ is_zero sst = true.
Proof.
  do 2 eexists. split; [vm_compute; reflexivity|].
  split; [vm_compute; reflexivity|]. split; reflexivity.
Qed.



(** ** The correlation analysis *)

(** C6, as the code has it.  The correlation analysis checks nothing
    about the number of rows: for every table, of any length, and every
    behaviour of [pearsonr], it makes the six calls in order, prints one
    line a call and returns the mapping of their results in call order,
    or fails with the first exception [pearsonr] raised; it raises no
    error of its own. *)
Theorem correlation_analysis_collects
        (pearsonr : list Q -> list Q -> outcome (float * float))
        (main_data : DataFrame) :
  match DigitalStratificationAnalysis.correlation_analysis pearsonr main_data,
        collect (pearson_calls pearsonr main_data) with
  | Returns (printed, correlations), Returns expected =>
      correlations = expected
      /\ map DigitalStratificationAnalysis.line_label printed
         = map snd DigitalStratificationAnalysis.variables
  | Raises e, Raises e' => e = e'
  | _, _ => False
  end.
Proof.
  unfold DigitalStratificationAnalysis.correlation_analysis, pearson_calls.
  cbn.
  destruct (pearsonr _ (map democratic_participation_index main_data))
    as [[r1 p1]|e]; cbn; [|reflexivity].
  destruct (pearsonr _ (map innovation_capacity_index main_data))
    as [[r2 p2]|e]; cbn; [|reflexivity].
  destruct (pearsonr _ (map civic_engagement_score main_data))
    as [[r3 p3]|e]; cbn; [|reflexivity].
  destruct (pearsonr _ (map social_trust_level main_data))
    as [[r4 p4]|e]; cbn; [|reflexivity].
  destruct (pearsonr _ (map patent_citations_per_capita main_data))
    as [[r5 p5]|e]; cbn; [|reflexivity].
  destruct (pearsonr _ (map democratic_erosion_risk main_data))
    as [[r6 p6]|e]; cbn; [|reflexivity].
  split; reflexivity.
Qed.

(** C6 as stated fails: on a table of two rows, with the library
    answering [(1, 1)] as it does for two points that rise together, the
    analysis returns a mapping of six entries and raises nothing. *)
Lemma correlation_analysis_two_rows :
  List.length two_row_table = 2%nat
  /\ raised_class
       (DigitalStratificationAnalysis.correlation_analysis
          (pearsonr_answering (Fin 1, Fin 1)) two_row_table) = None
  /\ exists printed correlations,
      DigitalStratificationAnalysis.correlation_analysis
        (pearsonr_answering (Fin 1, Fin 1)) two_row_table
      = Returns (printed, correlations)
      /\ map fst correlations = map fst DigitalStratificationAnalysis.variables
      /\ dict_get correlations "democratic_participation_index"
         = Some (DigitalStratificationAnalysis.mk_entry (Fin 1) (Fin 1)).
Proof.
  split; [reflexivity|]. split; [reflexivity|].
  eexists. eexists. split; [vm_compute; reflexivity|].
  split; reflexivity.
Qed.

(** When [pearsonr] itself refuses a column, the analysis fails with
    that exception as it is. *)
Example correlation_analysis_library_failure :
  DigitalStratificationAnalysis.correlation_analysis
    (fun _ _ => Raises (ValueError "x and y must have length at least 2."))
    []
  = Raises (ValueError "x and y must have length at least 2.").
Proof. reflexivity. Qed.

(** The line printed for democratic erosion risk, for every table and
    every library answer: its coefficient is [-abs(r)] of the [r] stored
    in the returned mapping, and the five other lines show the stored
    [r] unchanged. *)
Lemma erosion_line_shows_negated_abs
      (pearsonr : list Q -> list Q -> outcome (float * float))
      (main_data : DataFrame)
      (printed : list DigitalStratificationAnalysis.table_line)
      (correlations : list (string * DigitalStratificationAnalysis.corr_entry)) :
  DigitalStratificationAnalysis.correlation_analysis pearsonr main_data
  = Returns (printed, correlations) ->
  map DigitalStratificationAnalysis.line_r printed
  = map (fun kv =>
           if String.eqb (fst kv) "democratic_erosion_risk"
           then fneg (fabs (DigitalStratificationAnalysis.r (snd kv)))
           else DigitalStratificationAnalysis.r (snd kv))
        correlations
  /\ map DigitalStratificationAnalysis.line_p printed
     = map (fun kv => DigitalStratificationAnalysis.p (snd kv)) correlations.
Proof.
  unfold DigitalStratificationAnalysis.correlation_analysis. cbn.
  destruct (pearsonr _ (map democratic_participation_index main_data))
    as [[r1 p1]|e]; cbn; [|discriminate].
  destruct (pearsonr _ (map innovation_capacity_index main_data))
    as [[r2 p2]|e]; cbn; [|discriminate].
  destruct (pearsonr _ (map civic_engagement_score main_data))
    as [[r3 p3]|e]; cbn; [|discriminate].
  destruct (pearsonr _ (map social_trust_level main_data))
    as [[r4 p4]|e]; cbn; [|discriminate].
  destruct (pearsonr _ (map patent_citations_per_capita main_data))
    as [[r5 p5]|e]; cbn; [|discriminate].
  destruct (pearsonr _ (map democratic_erosion_risk main_data))
    as [[r6 p6]|e]; cbn; [|discriminate].
  intro H. injection H as <- <-. split; reflexivity.
Qed.

(** C1, run on a failing input.  In [aligned_table] democratic erosion
    risk rises linearly with the Balance Index, so their Pearson
    coefficient is exactly 1.  With the library reporting [(1, 0)] the
    returned mapping stores [r = 1] for democratic erosion risk, and the
    line printed for it shows [-1]: the sign of the reported coefficient
    is forced. *)
Theorem correlation_analysis_forces_sign :
  pearson_r_is (map balance_index aligned_table)
               (map democratic_erosion_risk aligned_table) 1
  /\ exists printed correlations line,
      DigitalStratificationAnalysis.correlation_analysis
        (pearsonr_answering (Fin 1, Fin 0)) aligned_table
      = Returns (printed, correlations)
      /\ dict_get correlations "democratic_erosion_risk"
         = Some (DigitalStratificationAnalysis.mk_entry (Fin 1) (Fin 0))
      /\ nth_error printed 5 = Some line
      /\ DigitalStratificationAnalysis.line_label line
         = "Democratic Erosion Risk"
      /\ feq (DigitalStratificationAnalysis.line_r line) (Fin (- (1)))
      /\ feqb (DigitalStratificationAnalysis.line_r line) (Fin 1) = false.
Proof.
  split.
  - unfold pearson_r_is. vm_compute. repeat split; discriminate.
  - do 3 eexists. split; [vm_compute; reflexivity|].
    split; [reflexivity|]. split; [reflexivity|].
    split; [reflexivity|]. split; reflexivity.
Qed.

(** ** Trends *)

(** What [time_series_analysis] returns, for every time series: the two
    Asian slopes are the trends of Asia against Asia's own years; the
    European slope is fitted against the years of Asia's observations. *)
Lemma time_series_slopes (ts : TimeSeries) (a h e : Q) :
  DigitalStratificationAnalysis.time_series_analysis ts = Returns (a, h, e) ->
  trend_spec ts "Asia" y_stem_percent = Returns a
  /\ trend_spec ts "Asia" y_humanities_percent = Returns h
  /\ LinearRegression_fit_coef
       (map y_year
            (groupby_year_mean
               (filter (fun pt => String.eqb (ts_region pt) "Asia") ts)))
       (map y_stem_percent
            (groupby_year_mean
               (filter (fun pt => String.eqb (ts_region pt) "Europe") ts)))
     = Returns e.
Proof.
  unfold DigitalStratificationAnalysis.time_series_analysis, trend_spec.
  cbv zeta.
  destruct (LinearRegression_fit_coef _ (map y_stem_percent _)) as [a'|];
    simpl; [|discriminate].
  destruct (LinearRegression_fit_coef _ (map y_humanities_percent _)) as [h'|];
    simpl; [|discriminate].
  destruct (LinearRegression_fit_coef _ _) as [e'|]; simpl; [|discriminate].
  intro H. injection H as <- <- <-. repeat split; reflexivity.
Qed.

(** C9, run on a failing input.  In [gap_series] Asia is observed in
    2015, 2016, 2017 and Europe in 2015, 2017, 2019; in both the STEM
    share rises by 0.5 a year.  The Asian slope returned is 0.5, the trend
    against Asia's years.  The European slope returned is 1: Europe's
    yearly means are fitted against Asia's years, while the trend against
    the years of Europe's own observations is 0.5. *)
Theorem time_series_europe_uses_asia_years :
  exists asia_stem_slope asia_hum_slope europe_stem_slope europe_trend,
    DigitalStratificationAnalysis.time_series_analysis gap_series
    = Returns (asia_stem_slope, asia_hum_slope, europe_stem_slope)
    /\ trend_spec gap_series "Asia" y_stem_percent = Returns asia_stem_slope
    /\ asia_stem_slope == 1 # 2
    /\ trend_spec gap_series "Europe" y_stem_percent = Returns europe_trend
    /\ europe_trend == 1 # 2
    /\ europe_stem_slope == 1
    /\ Qeq_bool europe_stem_slope europe_trend = false.
Proof.
  do 4 eexists. split; [vm_compute; reflexivity|].
  split; [vm_compute; reflexivity|]. split; [reflexivity|].
  split; [vm_compute; reflexivity|]. split; [reflexivity|].
  split; reflexivity.
Qed.

(** When the two regions were not observed in the same number of
    years, the European fit fails. *)
Example time_series_unequal_years :
  raised_class
    (DigitalStratificationAnalysis.time_series_analysis
       (mk_point 2020 "Asia" 42 9 (9 # 42) :: gap_series))
  = Some "ValueError".
Proof. vm_compute. reflexivity. Qed.

(** ** Further runs *)

(** The Balance Index does not depend on the order of its arguments. *)
Lemma calculate_symmetric (s h : Q) (rg rg' : option string) :
  0 <= s -> 0 <= h ->
  exists i j,
    BalanceIndex.calculate (BalanceIndex.mk (Fin s) (Fin h) rg) = Returns (Fin i)
    /\ BalanceIndex.calculate (BalanceIndex.mk (Fin h) (Fin s) rg')
       = Returns (Fin j)
    /\ i == j.
Proof.
  intros Hs Hh.
  destruct (calculate_finite s h rg Hs Hh) as (i & Hi & Hi0 & Hiq).
  destruct (calculate_finite h s rg' Hh Hs) as (j & Hj & Hj0 & Hjq).
  exists i, j. split; [exact Hi|]. split; [exact Hj|].
  destruct (Qeq_dec s 0) as [Es|Es]; destruct (Qeq_dec h 0) as [Eh|Eh].
  - rewrite Hi0, Hj0 by tauto. reflexivity.
  - rewrite Hiq, Hjq by tauto. rewrite (Q.min_comm h s), (Q.max_comm h s).
    reflexivity.
  - rewrite Hiq, Hjq by tauto. rewrite (Q.min_comm h s), (Q.max_comm h s).
    reflexivity.
  - rewrite Hiq, Hjq by tauto. rewrite (Q.min_comm h s), (Q.max_comm h s).
    reflexivity.
Qed.

(** On a table without rows both spreads are [nan], and so is the
    ratio. *)
Example stratification_ratio_empty_table :
  DigitalStratificationAnalysis.digital_stratification_ratio [] = Returns NaN.
Proof. reflexivity. Qed.

(** On a table without rows the two sums are the int 0 that [sum]
    starts from, and the division of the effect size raises. *)
Example anova_empty_table_raises (fp : float * float) :
  raised_class
    (DigitalStratificationAnalysis.anova_analysis (f_oneway_answering fp) [])
  = Some "ZeroDivisionError".
Proof. reflexivity. Qed.

(* ================================================================== *)
(** * Further properties of the code *)

(** ** The constructor of the Balance Index *)

(** Every object the constructor builds holds two finite percentages in
    [0,100], the inputs themselves, and the region it was given: [nan],
    the infinities and out-of-range numbers never get into an object. *)
Theorem init_fields_in_range (s h : float) (rg : option string)
        (b : BalanceIndex.t) :
  BalanceIndex.__init__ s h rg = Returns b ->
  exists qs qh,
    s = Fin qs /\ h = Fin qh
    /\ b = BalanceIndex.mk (Fin qs) (Fin qh) rg
    /\ 0 <= qs <= 100 /\ 0 <= qh <= 100.
Proof.
  unfold BalanceIndex.__init__, BalanceIndex._validate_percentage.
  destruct (fleb (Fin 0) s && fleb s (Fin 100)) eqn:Es;
    destruct (fleb (Fin 0) h && fleb h (Fin 100)) eqn:Eh;
    cbn [negb bind]; intro H; try discriminate H.
  injection H as <-.
  destruct s as [qs| | |]; simpl in Es; try discriminate.
  destruct h as [qh| | |]; simpl in Eh; try discriminate.
  exists qs, qh. apply fleb_range in Es. apply fleb_range in Eh.
  repeat split; try reflexivity; tauto.
Qed.

Lemma init_fields_in_range_witness :
  exists qs qh,
    Fin 43 = Fin qs /\ Fin 7 = Fin qh
    /\ BalanceIndex.mk (Fin 43) (Fin 7) (Some "Asia")
       = BalanceIndex.mk (Fin qs) (Fin qh) (Some "Asia")
    /\ 0 <= qs <= 100 /\ 0 <= qh <= 100.
Proof.
  apply (init_fields_in_range (Fin 43) (Fin 7) (Some "Asia")). reflexivity.
Defined.

Lemma calculate_symmetric_witness :
  exists i j,
    BalanceIndex.calculate (BalanceIndex.mk (Fin 40) (Fin 10) None)
    = Returns (Fin i)
    /\ BalanceIndex.calculate (BalanceIndex.mk (Fin 10) (Fin 40) None)
       = Returns (Fin j)
    /\ i == j.
Proof.
  apply (calculate_symmetric 40 10 None None); lra.
Defined.

(** ** Groups by region *)

Lemma unique_from_fresh (seen l : list string) :
  NoDup (unique_from seen l)
  /\ forall x, In x (unique_from seen l) -> ~ In x seen.
Proof.
  revert seen. induction l as [|a l IH]; intro seen; simpl.
  - split; [constructor | intros x []].
  - destruct (existsb (String.eqb a) seen) eqn:E.
    + apply IH.
    + destruct (IH (a :: seen)) as (Hnd & Hfresh). split.
      * constructor; [|exact Hnd].
        intro Hin. apply (Hfresh a Hin). left; reflexivity.
      * intros x [<-|Hx] Hseen.
        -- assert (existsb (String.eqb a) seen = true); [|congruence].
           apply existsb_exists. exists a. split; [exact Hseen|].
           apply String.eqb_refl.
        -- apply (Hfresh x Hx). right; exact Hseen.
Qed.

Lemma unique_from_complete (seen l : list string) (x : string) :
  In x l -> ~ In x seen -> In x (unique_from seen l).
Proof.
  revert seen. induction l as [|a l IH]; intros seen Hin Hseen; [destruct Hin|].
  simpl. destruct (existsb (String.eqb a) seen) eqn:E.
  - destruct Hin as [->|Hin]; [|apply IH; assumption].
    apply existsb_exists in E. destruct E as (y & Hy & Hxy).
    apply String.eqb_eq in Hxy. subst y. contradiction.
  - destruct (string_dec a x) as [->|Hne]; [left; reflexivity|].
    right. destruct Hin as [->|Hin]; [congruence|].
    apply IH; [exact Hin|]. intros [->|H]; [congruence | contradiction].
Qed.

Lemma unique_NoDup (l : list string) : NoDup (unique l).
Proof. apply (unique_from_fresh [] l). Qed.

Lemma unique_In_iff (l : list string) (x : string) : In x (unique l) <-> In x l.
Proof.
  split; [apply unique_In|]. intro H.
  apply unique_from_complete; [exact H | intros []].
Qed.

Lemma Qsum_plus {A : Type} (g h : A -> Q) (l : list A) :
  Qsum (map (fun x => g x + h x) l) == Qsum (map g l) + Qsum (map h l).
Proof.
  induction l as [|a l IH]; simpl; [ring|]. rewrite IH. ring.
Qed.

Lemma Qsum_indicator (k0 : string) (c : Q) (ks : list string) :
  NoDup ks ->
  Qsum (map (fun k => if String.eqb k0 k then c else 0) ks)
  == if in_dec string_dec k0 ks then c else 0.
Proof.
  induction 1 as [|k ks Hk Hnd IH]; simpl; [reflexivity|].
  rewrite IH. destruct (String.eqb k0 k) eqn:E.
  - apply String.eqb_eq in E. subst k0.
    destruct (string_dec k k) as [Heq|Hn]; [|congruence].
    destruct (in_dec string_dec k ks) as [Hin|Hnin]; [contradiction|]. ring.
  - apply String.eqb_neq in E.
    destruct (string_dec k k0) as [Heq|Hne]; [congruence|].
    destruct (in_dec string_dec k0 ks); ring.
Qed.

(** Adding up a quantity region by region, over distinct regions that
    cover the table, gives the sum over all rows. *)
Lemma Qsum_by_key {A : Type} (key : A -> string) (f : A -> Q)
      (ks : list string) (l : list A) :
  NoDup ks ->
  (forall x, In x l -> In (key x) ks) ->
  Qsum (map (fun k =>
               Qsum (map f (filter (fun x => String.eqb (key x) k) l))) ks)
  == Qsum (map f l).
Proof.
  intros Hnd. induction l as [|a l IH]; intro Hcov.
  - simpl. apply Qsum_all_zero. intros x Hx.
    apply in_map_iff in Hx. destruct Hx as (k & <- & _). reflexivity.
  - assert (Hstep :
      Qsum (map (fun k =>
                   Qsum (map f (filter (fun x => String.eqb (key x) k) (a :: l))))
                ks)
      == Qsum (map (fun k =>
                      (if String.eqb (key a) k then f a else 0)
                      + Qsum (map f (filter (fun x => String.eqb (key x) k) l)))
                   ks)).
    { apply Qsum_ext. intros k _. simpl.
      destruct (String.eqb (key a) k); simpl; ring. }
    rewrite Hstep, Qsum_plus, IH by (intros; apply Hcov; right; assumption).
    rewrite Qsum_indicator by exact Hnd.
    destruct (in_dec string_dec (key a) ks) as [Hin|Hn].
    + simpl. reflexivity.
    + exfalso. apply Hn, Hcov. left; reflexivity.
Qed.

(** ** The groups of the ANOVA *)

Lemma Qsum_ones {A : Type} (l : list A) : Qsum (map (fun _ => 1) l) == Qlen l.
Proof.
  induction l as [|a l IH].
  - unfold Qlen; simpl. reflexivity.
  - change (Qsum (map (fun _ : A => 1) (a :: l)))
      with (1 + Qsum (map (fun _ : A => 1) l)).
    rewrite IH, Qlen_cons. reflexivity.
Qed.

Lemma unique_from_snoc (seen l : list string) (x : string) :
  unique_from seen (l ++ [x])
  = if existsb (String.eqb x) seen || existsb (String.eqb x) l
    then unique_from seen l
    else unique_from seen l ++ [x].
Proof.
  revert seen. induction l as [|a l IH]; intro seen; simpl.
  - rewrite orb_false_r. reflexivity.
  - destruct (existsb (String.eqb a) seen) eqn:Ea.
    + rewrite IH. destruct (String.eqb x a) eqn:Exa; [|reflexivity].
      apply String.eqb_eq in Exa. subst a. rewrite Ea. reflexivity.
    + rewrite IH. simpl.
      replace ((String.eqb x a || existsb (String.eqb x) seen)
               || existsb (String.eqb x) l)
        with (existsb (String.eqb x) seen
              || (String.eqb x a || existsb (String.eqb x) l))
        by (destruct (String.eqb x a), (existsb (String.eqb x) seen);
            reflexivity).
      destruct (existsb (String.eqb x) seen
                || (String.eqb x a || existsb (String.eqb x) l));
        reflexivity.
Qed.

Lemma existsb_eqb_In (x : string) (l : list string) :
  existsb (String.eqb x) l = true <-> In x l.
Proof.
  rewrite existsb_exists. split.
  - intros (y & Hy & E). apply String.eqb_eq in E. subst y. exact Hy.
  - intro H. exists x. split; [exact H | apply String.eqb_refl].
Qed.

(** [unique] keeps the order of first appearance: a value that was
    seen before changes nothing, a new value goes to the end. *)
Lemma unique_snoc (l : list string) (x : string) :
  (In x l -> unique (l ++ [x]) = unique l)
  /\ (~ In x l -> unique (l ++ [x]) = unique l ++ [x]).
Proof.
  unfold unique. rewrite unique_from_snoc. simpl.
  destruct (existsb (String.eqb x) l) eqn:E.
  - apply existsb_eqb_In in E. split; [reflexivity | contradiction].
  - split; [|reflexivity]. intro H. apply existsb_eqb_In in H. congruence.
Qed.

(** The groups the ANOVA is run on partition the table: there is one
    group for each distinct region, no group is empty, every value of the
    table lies in the group of its region, and the group sizes add up to
    the number of rows.  The groups stand in order of first appearance of
    their regions: a further row of a known region leaves the list of
    regions as it is, and a further row of a new region puts that region
    last. *)
Theorem region_groups_partition (main_data : DataFrame) (row : CountryRecord) :
  DigitalStratificationAnalysis.region_groups main_data
  = map (group_values main_data) (unique (map region main_data))
  /\ NoDup (unique (map region main_data))
  /\ (forall rg, In rg (unique (map region main_data))
                 <-> exists row, In row main_data /\ region row = rg)
  /\ (forall g, In g (DigitalStratificationAnalysis.region_groups main_data) ->
                g <> [])
  /\ (forall row, In row main_data ->
                  In (balance_index row)
                     (group_values main_data (region row)))
  /\ Qsum (map Qlen (DigitalStratificationAnalysis.region_groups main_data))
     == Qlen main_data
  /\ unique (map region []) = []
  /\ (In (region row) (map region main_data) ->
      unique (map region (main_data ++ [row]))
      = unique (map region main_data))
  /\ (~ In (region row) (map region main_data) ->
      unique (map region (main_data ++ [row]))
      = unique (map region main_data) ++ [region row]).
Proof.
  split; [reflexivity|]. split; [apply unique_NoDup|]. split.
  { intro rg. rewrite unique_In_iff, in_map_iff.
    split; intros (r & H1 & H2); exists r; tauto. }
  split.
  { intros g Hg. rewrite region_groups_eq in Hg. apply in_map_iff in Hg.
    destruct Hg as (rg & <- & Hrg).
    apply group_values_nonempty, unique_In, Hrg. }
  split.
  { intros r Hr. unfold group_values. apply in_map, filter_In.
    split; [exact Hr | apply String.eqb_refl]. }
  split.
  { rewrite region_groups_eq, map_map.
    rewrite <- (Qsum_ones main_data).
    rewrite <- (Qsum_by_key region (fun _ => 1) (unique (map region main_data))
                  main_data (unique_NoDup _))
      by (intros r Hr; apply unique_In_iff, in_map, Hr).
    apply Qsum_ext. intros rg _. unfold group_values.
    rewrite Qlen_map, Qsum_ones. reflexivity. }
  split; [reflexivity|].
  rewrite map_app. simpl. apply unique_snoc.
Qed.

(** The ANOVA analysis on a table without rows never returns: it fails
    with what [f_oneway] raises, or in its own division.  On a table with
    rows it adds no failure of its own: it raises exactly when [f_oneway]
    raises, with the same exception. *)
Theorem anova_failures
        (f_oneway : list (list Q) -> outcome (float * float))
        (main_data : DataFrame) :
  (main_data = [] ->
   DigitalStratificationAnalysis.anova_analysis f_oneway main_data
   = match f_oneway [] with
     | Returns _ => Raises (ZeroDivisionError "division by zero")
     | Raises e => Raises e
     end)
  /\ (main_data <> [] ->
      forall e,
        DigitalStratificationAnalysis.anova_analysis f_oneway main_data
        = Raises e
        <-> f_oneway (DigitalStratificationAnalysis.region_groups main_data)
            = Raises e).
Proof.
  split.
  - intros ->. unfold DigitalStratificationAnalysis.anova_analysis.
    change (DigitalStratificationAnalysis.region_groups []) with (@nil (list Q)).
    destruct (f_oneway []); reflexivity.
  - intros Hne e.
    destruct (eta_squared_computed main_data Hne)
      as (ssb & sst & _ & _ & _ & _ & Hd).
    unfold DigitalStratificationAnalysis.anova_analysis.
    destruct (f_oneway _) as [fp|e']; simpl.
    + rewrite Hd. simpl. split; discriminate.
    + split; intro H; injection H as ->; reflexivity.
Qed.

(** ** The stratification ratio, further *)

Lemma ratio_value (d : DataFrame) :
  d <> [] ->
  exists smax smin hmax hmin,
    is_max smax (map stem_percent d) /\ is_min smin (map stem_percent d)
    /\ is_max hmax (map humanities_percent d)
    /\ is_min hmin (map humanities_percent d)
    /\ DigitalStratificationAnalysis.digital_stratification_ratio d
       = Returns (np_div (Fin (smax - smin)) (Fin (hmax - hmin))).
Proof.
  intro Hne.
  assert (Hs : map stem_percent d <> []) by (destruct d; simpl; congruence).
  assert (Hh : map humanities_percent d <> [])
    by (destruct d; simpl; congruence).
  destruct (series_max_spec _ Hs) as (smax & Esmax & Hsmax).
  destruct (series_min_spec _ Hs) as (smin & Esmin & Hsmin).
  destruct (series_max_spec _ Hh) as (hmax & Ehmax & Hhmax).
  destruct (series_min_spec _ Hh) as (hmin & Ehmin & Hhmin).
  exists smax, smin, hmax, hmin. do 4 (split; [assumption|]).
  unfold DigitalStratificationAnalysis.digital_stratification_ratio.
  rewrite Esmax, Esmin, Ehmax, Ehmin. reflexivity.
Qed.

Lemma max_above_min (hi lo : Q) (l : list Q) :
  is_max hi l -> is_min lo l -> lo <= hi.
Proof. intros [Hhi _] [_ Hmin]. apply Hmin, Hhi. Qed.

Lemma np_div_feq (x x' y y' : Q) :
  x == x' -> y == y' ->
  feq (np_div (Fin x) (Fin y)) (np_div (Fin x') (Fin y')).
Proof.
  intros Hx Hy. unfold np_div, is_zero, signed_inf. simpl.
  destruct (Qeq_bool y 0) eqn:E; destruct (Qeq_bool y' 0) eqn:E'; qbool;
    try (exfalso; lra).
  - destruct (Qltb 0 x) eqn:E1; destruct (Qltb 0 x') eqn:E1'; qbool;
      try (exfalso; lra); simpl; auto.
    destruct (Qltb x 0) eqn:E2; destruct (Qltb x' 0) eqn:E2'; qbool;
      try (exfalso; lra); simpl; auto.
  - simpl. rewrite Hx, Hy. reflexivity.
Qed.

(** The ratio is never negative and the computation never raises: on
    every table, empty or not, it returns [nan], [inf] or a number that is
    at least 0. *)
Theorem stratification_ratio_never_negative (main_data : DataFrame) :
  exists v,
    DigitalStratificationAnalysis.digital_stratification_ratio main_data
    = Returns v
    /\ (v = NaN \/ v = PInf \/ exists q, v = Fin q /\ 0 <= q).
Proof.
  destruct main_data as [|row d'].
  { exists NaN. split; [reflexivity | left; reflexivity]. }
  destruct (ratio_value (row :: d')) as
      (smax & smin & hmax & hmin & Hsmax & Hsmin & Hhmax & Hhmin & Hr);
    [discriminate|].
  pose proof (max_above_min _ _ _ Hsmax Hsmin).
  pose proof (max_above_min _ _ _ Hhmax Hhmin).
  eexists. split; [exact Hr|].
  unfold np_div, is_zero, signed_inf. simpl.
  destruct (Qeq_bool (hmax - hmin) 0) eqn:E; qbool.
  - destruct (Qltb 0 (smax - smin)) eqn:E1; qbool; [right; left; reflexivity|].
    destruct (Qltb (smax - smin) 0) eqn:E2; qbool; [lra | left; reflexivity].
  - right; right. eexists. split; [reflexivity|].
    apply Qle_shift_div_l; lra.
Qed.

Lemma max_unique (l l' : list Q) (m m' : Q) :
  Permutation l l' -> is_max m l -> is_max m' l' -> m == m'.
Proof.
  intros Hp [Hm Hmax] [Hm' Hmax'].
  pose proof (Hmax' m (Permutation_in _ Hp Hm)).
  pose proof (Hmax m' (Permutation_in _ (Permutation_sym Hp) Hm')). lra.
Qed.

Lemma min_unique (l l' : list Q) (m m' : Q) :
  Permutation l l' -> is_min m l -> is_min m' l' -> m == m'.
Proof.
  intros Hp [Hm Hmin] [Hm' Hmin'].
  pose proof (Hmin' m (Permutation_in _ Hp Hm)).
  pose proof (Hmin m' (Permutation_in _ (Permutation_sym Hp) Hm')). lra.
Qed.

(** The ratio does not depend on the order of the rows. *)
Theorem stratification_ratio_order_independent (d d' : DataFrame) :
  Permutation d d' ->
  exists v v',
    DigitalStratificationAnalysis.digital_stratification_ratio d = Returns v
    /\ DigitalStratificationAnalysis.digital_stratification_ratio d'
       = Returns v'
    /\ feq v v'.
Proof.
  intro Hp. destruct d as [|row d0].
  { apply Permutation_nil in Hp. subst d'.
    exists NaN, NaN. repeat split; reflexivity. }
  assert (Hne' : d' <> []).
  { intros ->. apply Permutation_sym, Permutation_nil in Hp. discriminate. }
  destruct (ratio_value (row :: d0)) as
      (smax & smin & hmax & hmin & Hsmax & Hsmin & Hhmax & Hhmin & Hr);
    [discriminate|].
  destruct (ratio_value d' Hne') as
      (smax' & smin' & hmax' & hmin' & Hsmax' & Hsmin' & Hhmax' & Hhmin' & Hr').
  eexists. eexists. split; [exact Hr|]. split; [exact Hr'|].
  pose proof (max_unique _ _ _ _ (Permutation_map stem_percent Hp) Hsmax Hsmax').
  pose proof (min_unique _ _ _ _ (Permutation_map stem_percent Hp) Hsmin Hsmin').
  pose proof (max_unique _ _ _ _ (Permutation_map humanities_percent Hp)
                         Hhmax Hhmax').
  pose proof (min_unique _ _ _ _ (Permutation_map humanities_percent Hp)
                         Hhmin Hhmin').
  apply np_div_feq; lra.
Qed.

Lemma stratification_ratio_order_independent_witness :
  exists v v',
    DigitalStratificationAnalysis.digital_stratification_ratio spread_table
    = Returns v
    /\ DigitalStratificationAnalysis.digital_stratification_ratio
         (rev spread_table) = Returns v'
    /\ feq v v'.
Proof.
  apply (stratification_ratio_order_independent spread_table (rev spread_table)).
  apply Permutation_rev.
Defined.

(** ** Yearly groups *)

Lemma insert_year_In (y x : Z) (l : list Z) :
  In x (insert_year y l) <-> x = y \/ In x l.
Proof.
  induction l as [|h t IH]; simpl.
  - split; [intros [<-|[]]; left; reflexivity | intros [->|[]]; left; reflexivity].
  - destruct (Z.ltb_spec y h) as [L|L]; [simpl; intuition congruence|].
    destruct (Z.eqb_spec y h) as [->|N]; [simpl; intuition|].
    simpl. rewrite IH. intuition.
Qed.

Lemma insert_year_HdRel (h y : Z) (t : list Z) :
  HdRel Z.lt h t -> (h < y)%Z -> HdRel Z.lt h (insert_year y t).
Proof.
  intros Hrel Hlt. destruct t as [|k t]; simpl; [constructor; exact Hlt|].
  destruct (Z.ltb_spec y k); [constructor; exact Hlt|].
  destruct (Z.eqb_spec y k); [exact Hrel|].
  inversion Hrel; subst. constructor. assumption.
Qed.

Lemma insert_year_sorted (y : Z) (l : list Z) :
  Sorted Z.lt l -> Sorted Z.lt (insert_year y l).
Proof.
  induction 1 as [|h t Hs IH Hrel]; simpl.
  - repeat constructor.
  - destruct (Z.ltb_spec y h) as [L|L].
    + constructor; [constructor; assumption | constructor; exact L].
    + destruct (Z.eqb_spec y h) as [->|N]; [constructor; assumption|].
      constructor; [exact IH | apply insert_year_HdRel; [exact Hrel | lia]].
Qed.

Lemma group_keys_sorted (ts : TimeSeries) : Sorted Z.lt (group_keys ts).
Proof.
  unfold group_keys. induction (map year ts) as [|y l IH]; simpl.
  - constructor.
  - apply insert_year_sorted, IH.
Qed.

Lemma group_keys_In (ts : TimeSeries) (y : Z) :
  In y (group_keys ts) <-> exists pt, In pt ts /\ year pt = y.
Proof.
  unfold group_keys.
  assert (H : In y (fold_right insert_year [] (map year ts))
              <-> In y (map year ts)).
  { induction (map year ts) as [|x l IH]; simpl; [tauto|].
    rewrite insert_year_In, IH. intuition. }
  rewrite H, in_map_iff. split; intros (pt & H1 & H2); exists pt; tauto.
Qed.

Lemma groupby_years (ts : TimeSeries) :
  map y_year (groupby_year_mean ts) = group_keys ts.
Proof.
  unfold groupby_year_mean. rewrite map_map. simpl. apply map_id.
Qed.

(** [groupby('year')] and its means: the yearly table has exactly one
    row for each year that occurs in the series, in strictly increasing
    order of the year, and each row holds the means over the rows of
    its year, of which there is at least one. *)
Theorem groupby_year_mean_rows (ts : TimeSeries) :
  Sorted Z.lt (map y_year (groupby_year_mean ts))
  /\ (forall y, In y (map y_year (groupby_year_mean ts))
                <-> exists pt, In pt ts /\ year pt = y)
  /\ (forall yr, In yr (groupby_year_mean ts) ->
        let rows := filter (fun pt => (year pt =? y_year yr)%Z) ts in
        rows <> []
        /\ y_stem_percent yr = Qmean (map ts_stem_percent rows)
        /\ y_humanities_percent yr = Qmean (map ts_humanities_percent rows)
        /\ y_balance_index yr = Qmean (map ts_balance_index rows)).
Proof.
  rewrite groupby_years. split; [apply group_keys_sorted|].
  split; [apply group_keys_In|].
  intros yr Hyr. unfold groupby_year_mean in Hyr. apply in_map_iff in Hyr.
  destruct Hyr as (y & <- & Hy). simpl.
  split; [|repeat split; reflexivity].
  apply group_keys_In in Hy. destruct Hy as (pt & Hpt & Hyear) .
  intro E.
  assert (Hin : In pt (filter (fun p => (year p =? y)%Z) ts))
    by (apply filter_In; split; [exact Hpt | apply Z.eqb_eq, Hyear]).
  rewrite E in Hin. destruct Hin.
Qed.

(** ** When the trend analysis returns *)

Lemma fit_returns_iff (X : list Z) (y : list Q) :
  (X <> [] /\ List.length y = List.length X ->
   exists b, LinearRegression_fit_coef X y = Returns b)
  /\ (X = [] \/ List.length y <> List.length X ->
      raised_class (LinearRegression_fit_coef X y) = Some "ValueError").
Proof.
  unfold LinearRegression_fit_coef.
  destruct (Nat.eqb_spec (List.length X) 0) as [E0|E0].
  - split; [|reflexivity].
    intros [Hne _]. destruct X; [congruence | discriminate].
  - destruct (Nat.eqb_spec (List.length X) (List.length y)) as [E|E]; simpl.
    + split; [intros _; eexists; reflexivity|].
      intros [->|H]; [simpl in E0; congruence | congruence].
    + split; [|reflexivity]. intros [_ H]. congruence.
Qed.

(** The trend analysis returns exactly when Asia was observed in at
    least one year and Europe in as many distinct years as Asia; in every
    other case it fails with the [ValueError] of the fit. *)
Theorem time_series_returns_iff (ts : TimeSeries) :
  let asia_years :=
    group_keys (filter (fun pt => String.eqb (ts_region pt) "Asia") ts) in
  let europe_years :=
    group_keys (filter (fun pt => String.eqb (ts_region pt) "Europe") ts) in
  (asia_years <> [] /\ List.length europe_years = List.length asia_years ->
   exists res, DigitalStratificationAnalysis.time_series_analysis ts
               = Returns res)
  /\ (asia_years = [] \/ List.length europe_years <> List.length asia_years ->
      raised_class (DigitalStratificationAnalysis.time_series_analysis ts)
      = Some "ValueError").
Proof.
  intros asia_years europe_years.
  unfold DigitalStratificationAnalysis.time_series_analysis. cbv zeta.
  rewrite !groupby_years. fold asia_years.
  set (asia := groupby_year_mean _) in *.
  set (europe := groupby_year_mean
                   (filter (fun pt => String.eqb (ts_region pt) "Europe") ts)).
  assert (La : List.length asia = List.length asia_years)
    by (unfold asia, asia_years; rewrite <- groupby_years, length_map;
        reflexivity).
  assert (Le : List.length europe = List.length europe_years)
    by (unfold europe, europe_years; rewrite <- groupby_years, length_map;
        reflexivity).
  destruct (fit_returns_iff asia_years (map y_stem_percent asia)) as (A1 & A2).
  destruct (fit_returns_iff asia_years (map y_humanities_percent asia))
    as (B1 & B2).
  destruct (fit_returns_iff asia_years (map y_stem_percent europe)) as (C1 & C2).
  rewrite length_map in *. split.
  - intros [Hne Hlen].
    destruct A1 as (a & ->); [split; [exact Hne | exact La]|].
    destruct B1 as (h & ->); [split; [exact Hne | exact La]|].
    destruct C1 as (e & ->); [split; [exact Hne | congruence]|].
    simpl. eexists; reflexivity.
  - intros [Hempty|Hlen].
    + destruct (LinearRegression_fit_coef asia_years (map y_stem_percent asia));
        [|apply A2; left; exact Hempty].
      simpl in A2. specialize (A2 (or_introl Hempty)). discriminate.
    + destruct (LinearRegression_fit_coef asia_years (map y_stem_percent asia))
        as [a|ea] eqn:Ea; simpl.
      * destruct (LinearRegression_fit_coef asia_years
                    (map y_humanities_percent asia)) as [h|eh] eqn:Eh; simpl.
        -- destruct (LinearRegression_fit_coef asia_years
                       (map y_stem_percent europe)) as [e|ee]; simpl.
           ++ assert (Hc : @raised_class Q (Returns e) = Some "ValueError")
                by (apply C2; right; congruence).
              discriminate Hc.
           ++ apply C2. right. congruence.
        -- destruct asia_years as [|y0 ys] eqn:Ey.
           ++ apply B2. left. reflexivity.
           ++ destruct B1 as (h' & Hh'); [split; [discriminate | exact La]|].
              congruence.
      * destruct asia_years as [|y0 ys] eqn:Ey.
        -- apply A2. left. reflexivity.
        -- destruct A1 as (a' & Ha'); [split; [discriminate | exact La]|].
           congruence.
Qed.

(** ** Trends over shared years *)

(** When both regions were observed in the same years, the European
    slope returned is the trend of Europe against its own years. *)
Theorem europe_slope_with_shared_years (ts : TimeSeries) (a h e : Q) :
  group_keys (filter (fun pt => String.eqb (ts_region pt) "Asia") ts)
  = group_keys (filter (fun pt => String.eqb (ts_region pt) "Europe") ts) ->
  DigitalStratificationAnalysis.time_series_analysis ts = Returns (a, h, e) ->
  trend_spec ts "Europe" y_stem_percent = Returns e.
Proof.
  intros Hyears H. destruct (time_series_slopes ts a h e H) as (_ & _ & He).
  unfold trend_spec. cbv zeta. rewrite groupby_years in *.
  rewrite <- Hyears. exact He.
Qed.

Lemma europe_slope_with_shared_years_witness :
  exists a h e,
    DigitalStratificationAnalysis.time_series_analysis linear_series
    = Returns (a, h, e)
    /\ trend_spec linear_series "Europe" y_stem_percent = Returns e.
Proof.
  do 3 eexists. split; [vm_compute; reflexivity|].
  eapply (europe_slope_with_shared_years linear_series);
    vm_compute; reflexivity.
Defined.

(** ** The validation of the manuscript's claims *)

Lemma fgtb_float_gt (x : float) (c : Q) :
  fgtb x (Fin c) = true <-> float_gt x c.
Proof.
  destruct x as [q| | |]; unfold fgtb; simpl;
    try (split; [discriminate | contradiction]); try tauto.
  apply Qltb_true.
Qed.

Lemma np_mean_between (l : list Q) (lo hi : Q) :
  fleb (Fin lo) (np_mean l) && fleb (np_mean l) (Fin hi) = true
  <-> l <> [] /\ lo <= Qmean l <= hi.
Proof.
  destruct l as [|x t]; simpl.
  - split; [discriminate | intros [H _]; congruence].
  - rewrite andb_true_iff, !Qle_bool_iff.
    split; [intros [H1 H2]; split; [discriminate | split; assumption] | tauto].
Qed.

Lemma np_mean_below (l : list Q) (c : Q) :
  fltb (np_mean l) (Fin c) = true <-> l <> [] /\ Qmean l < c.
Proof.
  destruct l as [|x t]; simpl.
  - split; [discriminate | intros [H _]; congruence].
  - rewrite Qltb_true. split; [intro; split; [discriminate | assumption] | tauto].
Qed.

Lemma np_mean_above (l : list Q) (c : Q) :
  fgtb (np_mean l) (Fin c) = true <-> l <> [] /\ c < Qmean l.
Proof.
  destruct l as [|x t]; unfold fgtb; simpl.
  - split; [discriminate | intros [H _]; congruence].
  - rewrite Qltb_true. split; [intro; split; [discriminate | assumption] | tauto].
Qed.

Lemma map_nonempty {A B : Type} (f : A -> B) (l : list A) :
  map f l <> [] <-> l <> [].
Proof. destruct l; simpl; split; congruence. Qed.

Lemma validation_dict (e1 e2 e3 e4 : ManuscriptReproducer.validation_entry) :
  dict_set
    (dict_set
       (dict_set (dict_set [] "asia_extreme_stem" e1) "europe_balanced" e2)
       "strong_correlations" e3)
    "high_predictive_power" e4
  = [ ("asia_extreme_stem", e1); ("europe_balanced", e2);
      ("strong_correlations", e3); ("high_predictive_power", e4) ].
Proof. reflexivity. Qed.

Lemma all_valid_of_four (k1 k2 k3 k4 : string)
      (e1 e2 e3 e4 : ManuscriptReproducer.validation_entry) :
  ManuscriptReproducer.all_valid_of [(k1, e1); (k2, e2); (k3, e3); (k4, e4)]
  = true
  <-> ManuscriptReproducer.valid e1 = true
      /\ ManuscriptReproducer.valid e2 = true
      /\ ManuscriptReproducer.valid e3 = true
      /\ ManuscriptReproducer.valid e4 = true.
Proof.
  unfold ManuscriptReproducer.all_valid_of. simpl.
  destruct (ManuscriptReproducer.valid e1), (ManuscriptReproducer.valid e2),
    (ManuscriptReproducer.valid e3), (ManuscriptReproducer.valid e4);
    simpl; intuition congruence.
Qed.

Lemma validate_returns_flags (main_data : DataFrame)
        (results : ManuscriptReproducer.stats_results)
        (dem inn : DigitalStratificationAnalysis.corr_entry) :
  dict_get (ManuscriptReproducer.correlations results)
           "democratic_participation_index" = Some dem ->
  dict_get (ManuscriptReproducer.correlations results)
           "innovation_capacity_index" = Some inn ->
  exists e1 e2 e3 e4 all_valid,
    ManuscriptReproducer.validate_manuscript_claims main_data results
    = Returns ([ ("asia_extreme_stem", e1); ("europe_balanced", e2);
                 ("strong_correlations", e3); ("high_predictive_power", e4) ],
               all_valid)
    /\ (ManuscriptReproducer.valid e1 = true
        <-> rows_of "Asia" main_data <> []
            /\ 43 <= Qmean (map stem_percent (rows_of "Asia" main_data))
               <= 445 # 10
            /\ Qmean (map balance_index (rows_of "Asia" main_data)) < 2 # 10)
    /\ (ManuscriptReproducer.valid e2 = true
        <-> rows_of "Europe" main_data <> []
            /\ 4 # 10 < Qmean (map balance_index (rows_of "Europe" main_data)))
    /\ (ManuscriptReproducer.valid e3 = true
        <-> float_gt (DigitalStratificationAnalysis.r dem) (6 # 10)
            /\ float_gt (DigitalStratificationAnalysis.r inn) (8 # 10))
    /\ (ManuscriptReproducer.valid e4 = true
        <-> float_gt (snd (ManuscriptReproducer.anova results)) (9 # 10))
    /\ (all_valid = true
        <-> ManuscriptReproducer.valid e1 = true
            /\ ManuscriptReproducer.valid e2 = true
            /\ ManuscriptReproducer.valid e3 = true
            /\ ManuscriptReproducer.valid e4 = true).
Proof.
  intros Hdem Hinn.
  unfold ManuscriptReproducer.validate_manuscript_claims, dict_lookup.
  rewrite Hdem, Hinn. cbn [bind]. cbv zeta.
  fold (rows_of "Asia" main_data). fold (rows_of "Europe" main_data).
  rewrite validation_dict.
  do 5 eexists. split; [reflexivity|].
  cbn [ManuscriptReproducer.valid].
  split.
  { rewrite andb_true_iff, np_mean_between, np_mean_below, !map_nonempty.
    tauto. }
  split.
  { rewrite np_mean_above, map_nonempty. tauto. }
  split.
  { rewrite andb_true_iff, !fgtb_float_gt. tauto. }
  split.
  { apply fgtb_float_gt. }
  apply all_valid_of_four.
Qed.



Lemma correlation_analysis_entries
      (pearsonr : list Q -> list Q -> outcome (float * float))
      (main_data : DataFrame)
      (printed : list DigitalStratificationAnalysis.table_line)
      (correlations : list (string * DigitalStratificationAnalysis.corr_entry)) :
  DigitalStratificationAnalysis.correlation_analysis pearsonr main_data
  = Returns (printed, correlations) ->
  exists dem inn,
    pearsonr (map balance_index main_data)
             (map democratic_participation_index main_data) = Returns dem
    /\ pearsonr (map balance_index main_data)
                (map innovation_capacity_index main_data) = Returns inn
    /\ dict_get correlations "democratic_participation_index"
       = Some (DigitalStratificationAnalysis.mk_entry (fst dem) (snd dem))
    /\ dict_get correlations "innovation_capacity_index"
       = Some (DigitalStratificationAnalysis.mk_entry (fst inn) (snd inn)).
Proof.
  unfold DigitalStratificationAnalysis.correlation_analysis. cbn.
  destruct (pearsonr _ (map democratic_participation_index main_data))
    as [[r1 p1]|e]; cbn; [|discriminate].
  destruct (pearsonr _ (map innovation_capacity_index main_data))
    as [[r2 p2]|e]; cbn; [|discriminate].
  destruct (pearsonr _ (map civic_engagement_score main_data))
    as [[r3 p3]|e]; cbn; [|discriminate].
  destruct (pearsonr _ (map social_trust_level main_data))
    as [[r4 p4]|e]; cbn; [|discriminate].
  destruct (pearsonr _ (map patent_citations_per_capita main_data))
    as [[r5 p5]|e]; cbn; [|discriminate].
  destruct (pearsonr _ (map democratic_erosion_risk main_data))
    as [[r6 p6]|e]; cbn; [|discriminate].
  intro H. injection H as <- <-.
  exists (r1, p1), (r2, p2). repeat split; reflexivity.
Qed.

(** From the correlation analysis to the validation: the mapping the
    analysis returns always holds the two correlations the validation
    reads, so the validation never fails on it, and the claim on strong
    correlations is decided by the coefficients [pearsonr] returned for the
    two variables. *)
Theorem validation_after_correlation
        (pearsonr : list Q -> list Q -> outcome (float * float))
        (main_data : DataFrame)
        (printed : list DigitalStratificationAnalysis.table_line)
        (correlations : list (string * DigitalStratificationAnalysis.corr_entry))
        (table : DataFrame) (anova : float * float * float) (ds_ratio : float) :
  DigitalStratificationAnalysis.correlation_analysis pearsonr main_data
  = Returns (printed, correlations) ->
  exists dem inn validation_results all_valid e3,
    pearsonr (map balance_index main_data)
             (map democratic_participation_index main_data) = Returns dem
    /\ pearsonr (map balance_index main_data)
                (map innovation_capacity_index main_data) = Returns inn
    /\ ManuscriptReproducer.validate_manuscript_claims table
         (ManuscriptReproducer.mk_stats correlations anova ds_ratio)
       = Returns (validation_results, all_valid)
    /\ dict_get validation_results "strong_correlations" = Some e3
    /\ (ManuscriptReproducer.valid e3 = true
        <-> float_gt (fst dem) (6 # 10) /\ float_gt (fst inn) (8 # 10)).
Proof.
  intro H.
  destruct (correlation_analysis_entries _ _ _ _ H)
    as (dem & inn & Hd & Hi & Gd & Gi).
  destruct (validate_returns_flags table
              (ManuscriptReproducer.mk_stats correlations anova ds_ratio)
              _ _ Gd Gi)
    as (e1 & e2 & e3 & e4 & av & Hv & _ & _ & H3 & _).
  exists dem, inn. do 2 eexists. exists e3.
  split; [exact Hd|]. split; [exact Hi|]. split; [exact Hv|].
  split; [reflexivity | exact H3].
Qed.

Lemma validation_after_correlation_witness :
  exists printed correlations dem inn validation_results all_valid e3,
    DigitalStratificationAnalysis.correlation_analysis
      (pearsonr_answering (Fin 1, Fin 0)) aligned_table
    = Returns (printed, correlations)
    /\ pearsonr_answering (Fin 1, Fin 0) (map balance_index aligned_table)
         (map democratic_participation_index aligned_table) = Returns dem
    /\ pearsonr_answering (Fin 1, Fin 0) (map balance_index aligned_table)
         (map innovation_capacity_index aligned_table) = Returns inn
    /\ ManuscriptReproducer.validate_manuscript_claims manuscript_like_table
         (ManuscriptReproducer.mk_stats correlations
            (Fin 20, Fin (1 # 1000), Fin (95 # 100)) (Fin (29 # 10)))
       = Returns (validation_results, all_valid)
    /\ dict_get validation_results "strong_correlations" = Some e3
    /\ (ManuscriptReproducer.valid e3 = true
        <-> float_gt (fst dem) (6 # 10) /\ float_gt (fst inn) (8 # 10)).
Proof.
  assert (Hrun : exists printed correlations,
             DigitalStratificationAnalysis.correlation_analysis
               (pearsonr_answering (Fin 1, Fin 0)) aligned_table
             = Returns (printed, correlations))
    by (do 2 eexists; vm_compute; reflexivity).
  destruct Hrun as (printed & correlations & Hrun).
  exists printed, correlations.
  destruct (validation_after_correlation
              (pearsonr_answering (Fin 1, Fin 0)) aligned_table _ _
              manuscript_like_table
              (Fin 20, Fin (1 # 1000), Fin (95 # 100)) (Fin (29 # 10)) Hrun)
    as (dem & inn & vr & av & e3 & H1 & H2 & H3 & H4 & H5).
  exists dem, inn, vr, av, e3.
  split; [exact Hrun|]. split; [exact H1|]. split; [exact H2|].
  split; [exact H3|]. split; [exact H4 | exact H5].
Defined.

Lemma erosion_line_shows_negated_abs_witness :
  exists printed correlations,
    DigitalStratificationAnalysis.correlation_analysis
      (pearsonr_answering (Fin 1, Fin 0)) aligned_table
    = Returns (printed, correlations)
    /\ map DigitalStratificationAnalysis.line_r printed
       = map (fun kv =>
                if String.eqb (fst kv) "democratic_erosion_risk"
                then fneg (fabs (DigitalStratificationAnalysis.r (snd kv)))
                else DigitalStratificationAnalysis.r (snd kv))
             correlations
    /\ map DigitalStratificationAnalysis.line_p printed
       = map (fun kv => DigitalStratificationAnalysis.p (snd kv)) correlations.
Proof.
  assert (Hrun : exists printed correlations,
             DigitalStratificationAnalysis.correlation_analysis
               (pearsonr_answering (Fin 1, Fin 0)) aligned_table
             = Returns (printed, correlations))
    by (do 2 eexists; vm_compute; reflexivity).
  destruct Hrun as (printed & correlations & Hrun).
  exists printed, correlations. split; [exact Hrun|].
  exact (erosion_line_shows_negated_abs _ _ _ _ Hrun).
Defined.
